(** * Overlay mount driver of sealer (utils/mount/overlay2.go)

    A shallow embedding of the overlay2 mount driver: the capability probe
    and the driver selection, [Mount] with its failure clean-up, and the
    parser that recovers the layers of a mount from the text printed by
    [mount | grep target].

    Go strings are byte sequences: they are embedded as [string], one
    [ascii] per byte.  An [int] index is a [nat]; the result [-1] of
    [strings.Index] is [None].  A run-time panic (index out of range) is
    [None] in the [option] monad.  Calls into the operating system are
    answered by an oracle record [OS]; the calls a function performs are
    collected, in order, in a trace of [Event]s. *)

From Stdlib Require Import String Ascii List Bool Arith ZArith Lia.
Import ListNotations.
Open Scope list_scope.
Open Scope string_scope.

(* ------------------------------------------------------------------ *)
(** ** Byte-level helpers *)

(** [s[:n]] *)
Fixpoint take (n : nat) (s : string) : string :=
  match n, s with
  | S n', String c s' => String c (take n' s')
  | _, _ => ""
  end.

(** [s[n:]] *)
Fixpoint drop (n : nat) (s : string) : string :=
  match n, s with
  | S n', String _ s' => drop n' s'
  | _, _ => s
  end.

(** the byte [c] occurs in [s] *)
Fixpoint hasByte (c : ascii) (s : string) : bool :=
  match s with
  | "" => false
  | String x s' => Ascii.eqb c x || hasByte c s'
  end.

Definition byteVal (c : ascii) : Z := Z.of_N (N_of_ascii c).

Definition byteAt (s : string) (i : Z) : Z :=
  match String.get (Z.to_nat i) s with
  | Some c => byteVal c
  | None => 0
  end.

(* ------------------------------------------------------------------ *)
(** ** Package unicode/utf8 and unicode.IsSpace *)

Module utf8.
Local Open Scope Z_scope.

Definition RuneError : Z := 0xFFFD.
Definition RuneSelf : Z := 0x80.
Definition UTFMax : Z := 4.

(** [first[b] & 7] for a leading byte that starts a multi-byte sequence *)
Definition seqSize (b0 : Z) : nat :=
  if b0 <? 0xE0 then 2 else if b0 <? 0xF0 then 3 else 4.

(** [acceptRanges[first[b] >> 4]]: the range allowed for the second byte *)
Definition acceptRange (b0 : Z) : Z * Z :=
  if b0 =? 0xE0 then (0xA0, 0xBF)
  else if b0 =? 0xED then (0x80, 0x9F)
  else if b0 =? 0xF0 then (0x90, 0xBF)
  else if b0 =? 0xF4 then (0x80, 0x8F)
  else (0x80, 0xBF).

Definition outside (b lo hi : Z) : bool := (b <? lo) || (hi <? b).

(** [utf8.DecodeRuneInString]: the first rune of [s] and its width in
    bytes; [(RuneError, 0)] on the empty string and [(RuneError, 1)] on an
    invalid encoding. *)
Definition DecodeRuneInString (s : string) : Z * nat :=
  match s with
  | "" => (RuneError, 0%nat)
  | String c0 t1 =>
    let s0 := byteVal c0 in
    if s0 <? RuneSelf then (s0, 1%nat)
    else if (s0 <? 0xC2) || (0xF4 <? s0) then (RuneError, 1%nat)
    else
      let sz := seqSize s0 in
      let '(lo, hi) := acceptRange s0 in
      if (String.length s <? sz)%nat then (RuneError, 1%nat)
      else
        match t1 with
        | "" => (RuneError, 1%nat)
        | String c1 t2 =>
          let s1 := byteVal c1 in
          if outside s1 lo hi then (RuneError, 1%nat)
          else if (sz <=? 2)%nat
          then (Z.lor (Z.shiftl (Z.land s0 0x1F) 6) (Z.land s1 0x3F), 2%nat)
          else
            match t2 with
            | "" => (RuneError, 1%nat)
            | String c2 t3 =>
              let s2 := byteVal c2 in
              if outside s2 0x80 0xBF then (RuneError, 1%nat)
              else if (sz <=? 3)%nat
              then (Z.lor (Z.lor (Z.shiftl (Z.land s0 0x0F) 12)
                                 (Z.shiftl (Z.land s1 0x3F) 6))
                          (Z.land s2 0x3F), 3%nat)
              else
                match t3 with
                | "" => (RuneError, 1%nat)
                | String c3 _ =>
                  let s3 := byteVal c3 in
                  if outside s3 0x80 0xBF then (RuneError, 1%nat)
                  else (Z.lor (Z.lor (Z.lor (Z.shiftl (Z.land s0 0x07) 18)
                                            (Z.shiftl (Z.land s1 0x3F) 12))
                                     (Z.shiftl (Z.land s2 0x3F) 6))
                              (Z.land s3 0x3F), 4%nat)
                end
            end
        end
  end.

(** [utf8.RuneStart]: [b] is not a continuation byte *)
Definition RuneStart (b : Z) : bool := negb (Z.land b 0xC0 =? 0x80).

(** the loop [for start--; start >= lim; start-- { if RuneStart(s[start]) { break } }] *)
Fixpoint backUp (fuel : nat) (s : string) (start lim : Z) : Z :=
  match fuel with
  | O => start
  | S fuel' =>
    if start <? lim then start
    else if RuneStart (byteAt s start) then start
    else backUp fuel' s (start - 1) lim
  end.

(** [utf8.DecodeLastRuneInString] *)
Definition DecodeLastRuneInString (s : string) : Z * nat :=
  let end_ := Z.of_nat (String.length s) in
  if end_ =? 0 then (RuneError, 0%nat)
  else
    let start := end_ - 1 in
    let r := byteAt s start in
    if r <? RuneSelf then (r, 1%nat)
    else
      let lim := Z.max 0 (end_ - UTFMax) in
      let start := backUp 4 s (start - 1) lim in
      let start := if start <? 0 then 0 else start in
      let '(r, size) := DecodeRuneInString (drop (Z.to_nat start) s) in
      if negb (start + Z.of_nat size =? end_) then (RuneError, 1%nat)
      else (r, size).

End utf8.

Module unicode.
Local Open Scope Z_scope.

(** [unicode.IsSpace]: the Latin-1 spaces and the White_Space property
    outside Latin-1. *)
Definition IsSpace (r : Z) : bool :=
  if r <=? 0xFF then
    (r =? 9) || (r =? 10) || (r =? 11) || (r =? 12) || (r =? 13)
    || (r =? 32) || (r =? 0x85) || (r =? 0xA0)
  else
    (r =? 0x1680) || ((0x2000 <=? r) && (r <=? 0x200A))
    || (r =? 0x2028) || (r =? 0x2029) || (r =? 0x202F)
    || (r =? 0x205F) || (r =? 0x3000).

End unicode.

(* ------------------------------------------------------------------ *)
(** ** Package strings *)

Module strings.

(** [strings.HasPrefix] *)
Fixpoint HasPrefix (s prefix : string) : bool :=
  match prefix, s with
  | "", _ => true
  | String a p, String b s' => Ascii.eqb a b && HasPrefix s' p
  | String _ _, "" => false
  end.

(** [strings.Index]: the byte index of the first instance of [substr] in
    [s]; [None] is Go's [-1]. *)
Fixpoint Index (s substr : string) : option nat :=
  if HasPrefix s substr then Some 0%nat
  else match s with
       | "" => None
       | String _ s' => option_map S (Index s' substr)
       end.

(** [strings.Contains]: [Index(s, substr) >= 0] *)
Definition Contains (s substr : string) : bool :=
  match Index s substr with
  | Some _ => true
  | None => false
  end.

(** [explode]: [s] cut into its UTF-8 sequences (the case of an empty
    separator of [Split]) *)
Fixpoint explode (fuel : nat) (s : string) : list string :=
  match fuel with
  | O => []
  | S fuel' =>
    match s with
    | "" => []
    | _ =>
      let size := snd (utf8.DecodeRuneInString s) in
      take size s :: explode fuel' (drop size s)
    end
  end.

(** The loop of [genSplit]: cut at the first instance of [sep], at most
    [n] times, and end with what is left. *)
Fixpoint genSplit (n : nat) (s sep : string) : list string :=
  match n with
  | O => [s]
  | S n' =>
    match Index s sep with
    | None => [s]
    | Some m => take m s :: genSplit n' (drop (m + String.length sep) s) sep
    end
  end.

(** [strings.Split].  Go bounds the loop by [Count(s, sep)], itself at
    most [len(s)]; the loop also leaves when [Index] finds nothing, so the
    bound [len(s)] gives the same slices. *)
Definition Split (s sep : string) : list string :=
  match sep with
  | "" => explode (String.length s) s
  | _ => genSplit (String.length s) s sep
  end.

(** [strings.Join] *)
Fixpoint Join (elems : list string) (sep : string) : string :=
  match elems with
  | [] => ""
  | [e] => e
  | e :: rest => e ++ sep ++ Join rest sep
  end.

(** Leading white space removed, rune by rune. *)
Fixpoint trimLeft (fuel : nat) (s : string) : string :=
  match fuel with
  | O => s
  | S fuel' =>
    match s with
    | "" => ""
    | _ =>
      let '(r, size) := utf8.DecodeRuneInString s in
      if unicode.IsSpace r then trimLeft fuel' (drop size s) else s
    end
  end.

(** Trailing white space removed, rune by rune. *)
Fixpoint trimRight (fuel : nat) (s : string) : string :=
  match fuel with
  | O => s
  | S fuel' =>
    match s with
    | "" => ""
    | _ =>
      let '(r, size) := utf8.DecodeLastRuneInString s in
      if unicode.IsSpace r then trimRight fuel' (take (String.length s - size) s)
      else s
    end
  end.

(** [strings.TrimSpace]: [s] without its leading and trailing white space
    (as [unicode.IsSpace] defines it). *)
Definition TrimSpace (s : string) : string :=
  let s' := trimLeft (String.length s) s in
  trimRight (String.length s') s'.

End strings.

(* ------------------------------------------------------------------ *)
(** ** Package path *)

Module path.

(** One element of the path handed to [Clean]; [out] holds the elements
    kept so far, last first.  An empty element and [.] are dropped; [..]
    removes the last kept element, and is kept itself only in a path that
    is not rooted and has nothing left to remove. *)
Definition cleanStep (rooted : bool) (out : list string) (elem : string)
  : list string :=
  if (elem =? "") || (elem =? ".") then out
  else if elem =? ".." then
    match out with
    | top :: out' => if top =? ".." then ".." :: out else out'
    | [] => if rooted then [] else [".."]
    end
  else elem :: out.

(** [path.Clean]: the shortest path name equivalent to [path] by purely
    lexical processing. *)
Definition Clean (path : string) : string :=
  if path =? "" then "."
  else
    let rooted := strings.HasPrefix path "/" in
    let out := fold_left (cleanStep rooted) (strings.Split path "/") [] in
    if rooted then "/" ++ strings.Join (rev out) "/"
    else match out with
         | [] => "."
         | _ => strings.Join (rev out) "/"
         end.

(** [path.Join]: the elements from the first non-empty one on, joined by
    slashes, and cleaned; the empty string when every element is empty. *)
Fixpoint Join (elem : list string) : string :=
  match elem with
  | [] => ""
  | e :: rest =>
    if e =? "" then Join rest else Clean (strings.Join elem "/")
  end.

End path.

(* ------------------------------------------------------------------ *)
(** ** Package utils of the repository *)

Module utils.

(** Modelled from the spec: [utils.Reverse], whose source is in another
    file of the repository.  The spec calls its result the reverse of the
    layer list ("the elements of L in reverse order"). *)
Definition Reverse (s : list string) : list string := rev s.

End utils.

(* ------------------------------------------------------------------ *)
(** ** Errors, the operating system, and the trace of calls *)

(** A Go [error]: its [Error()] text, and whether [os.IsNotExist] holds
    of it. *)
Record error : Type := mkError { Error : string; notExist : bool }.

(** [fmt.Errorf] with a format that has no [%w] *)
Definition Errorf (msg : string) : error := mkError msg false.

(** [disk.PartitionStat] of gopsutil *)
Record PartitionStat : Type := mkPartitionStat {
  Device : string;
  Mountpoint : string;
  Fstype : string;
  Opts : string
}.

(** What the environment answers to each call of the driver.  An answer
    [None] of type [option error] is Go's [nil] error. *)
Record OS : Type := mkOS {
  (** [exec.Command(name, arg).Run()] *)
  exec_Run : string -> list string -> option error;
  (** [os.Open]: [inl] is the failure; [inr] holds the lines the
      [bufio.Scanner] over the opened file yields, in order. *)
  os_Open : string -> error + list string;
  (** [f.Close()] of the file opened at that name *)
  file_Close : string -> option error;
  (** [utils.Mkdir] *)
  utils_Mkdir : string -> option error;
  (** [os.Stat], the [FileInfo] dropped *)
  os_Stat : string -> option error;
  (** [os.RemoveAll] *)
  os_RemoveAll : string -> option error;
  (** [syscall.Mount(source, target, fstype, flags, data)] *)
  syscall_Mount : string -> string -> string -> Z -> string -> option error;
  (** [syscall.Unmount(target, flags)] *)
  syscall_Unmount : string -> Z -> option error;
  (** [utils.RunSimpleCmd]: the output of a shell command, and its error *)
  utils_RunSimpleCmd : string -> string * option error;
  (** [disk.Partitions(all)] of gopsutil *)
  disk_Partitions : bool -> list PartitionStat * option error
}.

(** The calls that change or inspect the system, as [Mount] and [Unmount]
    issue them. *)
Inductive Event : Type :=
| EvMkdir (dir : string)
| EvStat (name : string)
| EvWarn (msg : string)
| EvDebug (msg : string)
| EvMount (device target mType : string) (flag : Z) (data : string)
| EvUnmount (target : string) (flag : Z)
| EvRemoveAll (dir : string).

(** A computation that returns a value and the trace of the calls it
    made. *)
Definition M (A : Type) : Type := A * list Event.

Definition ret {A} (a : A) : M A := (a, []).

Definition bind {A B} (m : M A) (k : A -> M B) : M B :=
  let '(a, t1) := m in
  let '(b, t2) := k a in
  (b, (t1 ++ t2)%list).

Definition call {A} (e : Event) (answer : A) : M A := (answer, [e]).

Notation "x <- m ;; k" := (bind m (fun x => k))
  (at level 61, m at next level, right associativity).
Notation "m ;;; k" := (bind m (fun _ => k))
  (at level 61, right associativity).

(** The option monad of panics. *)
Definition obind {A B} (m : option A) (k : A -> option B) : option B :=
  match m with
  | Some a => k a
  | None => None
  end.

Notation "x <-? m ;; k" := (obind m (fun x => k))
  (at level 61, m at next level, right associativity).

(** A function that may end the process ([logger.Fatal]) instead of
    returning. *)
Inductive Outcome (A : Type) : Type :=
| Returned (a : A)
| Exited.
Arguments Returned {A} a.
Arguments Exited {A}.

(* ------------------------------------------------------------------ *)
(** ** The driver *)

(** [Interface] has two implementations: [Overlay2] here and [Default]
    in another file of the package. *)
Inductive Interface : Type :=
| Overlay2
| Default.

(** [supportsOverlay].  The file is closed by a deferred call when the
    function returns; a failing [Close] ends the process through
    [logger.Fatal]. *)
Definition supportsOverlay (os : OS) : Outcome bool :=
  match exec_Run os "modprobe" ["overlay"] with
  | Some _ => Returned false
  | None =>
    match os_Open os "/proc/filesystems" with
    | inl _ => Returned false
    | inr lines =>
      let result := existsb (fun text => text =? "nodev" ++ String "009" "overlay") lines in
      match file_Close os "/proc/filesystems" with
      | Some _ => Exited
      | None => Returned result
      end
    end
  end.

(** [NewMountDriver] *)
Definition NewMountDriver (os : OS) : Outcome Interface :=
  match supportsOverlay os with
  | Exited => Exited
  | Returned true => Returned Overlay2
  | Returned false => Returned Default
  end.

Definition MS_RDONLY : Z := 1.
Definition MS_REMOUNT : Z := 32.
Definition MS_BIND : Z := 4096.
Definition MNT_FORCE : Z := 1.

(** [mount]: the system call, and once more with [MS_REMOUNT] for a
    read-only bind mount. *)
Definition mount (os : OS) (device target mType : string) (flag : Z)
    (data : string) : M (option error) :=
  err <- call (EvMount device target mType flag data)
              (syscall_Mount os device target mType flag data) ;;
  match err with
  | Some e => ret (Some e)
  | None =>
    if (Z.land flag MS_BIND =? MS_BIND)%Z && (Z.land flag MS_RDONLY =? MS_RDONLY)%Z
    then call (EvMount device target mType (Z.lor flag MS_REMOUNT) data)
              (syscall_Mount os device target mType (Z.lor flag MS_REMOUNT) data)
    else ret None
  end.

(** [unmount] *)
Definition unmount (os : OS) (target : string) (flag : Z) : M (option error) :=
  call (EvUnmount target flag) (syscall_Unmount os target flag).

(** The option string of line 104:
    [fmt.Sprintf("%slowerdir=%s,upperdir=%s,workdir=%s", ...)]. *)
Definition mountData (indexOff : string) (layers : list string)
    (upperLayer workdir : string) : string :=
  indexOff ++ "lowerdir=" ++ strings.Join (utils.Reverse layers) ":"
           ++ ",upperdir=" ++ upperLayer ++ ",workdir=" ++ workdir.

Definition indexParameter : string := "/sys/module/overlay/parameters/index".

(** The body of [Overlay2.Mount] from the declaration of [err] on.  It
    returns the value of the [return] statement together with the last
    value of the variable [err], which the deferred function reads. *)
Definition Mount_body (os : OS) (target upperLayer : string)
    (layers : list string) (workdir : string)
  : M (option error * option error) :=
  err <- call (EvStat indexParameter) (os_Stat os indexParameter) ;;
  indexOff <- match err with
              | None => ret "index=off,"
              | Some e =>
                if notExist e then ret ""
                else call (EvWarn ("Unable to detect whether overlay kernel module supports index parameter: " ++ Error e)) ""
              end ;;
  let data := mountData indexOff layers upperLayer workdir in
  call (EvDebug ("mount data : " ++ data)) tt ;;;
  err <- mount os "overlay" target "overlay" 0 data ;;
  match err with
  | Some e =>
    ret (Some (Errorf ("error creating overlay mount to " ++ target ++ ": " ++ Error e)), err)
  | None => ret (None, err)
  end.

(** [Overlay2.Mount] *)
Definition Mount (os : OS) (target upperLayer : string) (layers : list string)
  : M (option error) :=
  if target =? "" then ret (Some (Errorf "target cannot be empty"))
  else if (List.length layers =? 0)%nat
  then ret (Some (Errorf "layers cannot be empty"))
  else
    let workdir := path.Join [target; "work"] in
    mk <- call (EvMkdir workdir) (utils_Mkdir os workdir) ;;
    match mk with
    | Some _ => ret (Some (Errorf "create workdir failed"))
    | None =>
      r <- Mount_body os target upperLayer layers workdir ;;
      let '(result, err) := r in
      match err with
      | Some _ => call (EvRemoveAll workdir) (os_RemoveAll os workdir) ;;; ret result
      | None => ret result
      end
    end.

(** [Overlay2.Unmount] *)
Definition Unmount (os : OS) (target : string) : M (option error) :=
  unmount os target MNT_FORCE.

(* ------------------------------------------------------------------ *)
(** ** Reading the mount table *)

Record Info : Type := mkInfo {
  Target : string;
  Upper : string;
  Lowers : list string
}.

(** [mountCmdResultSplit].  The result [None] is the panic of an index
    out of range; [Some (found, info)] is the pair the function returns,
    [info = None] being the [nil] pointer. *)
Definition mountCmdResultSplit (result target : string)
  : option (bool * option Info) :=
  if negb (strings.Contains result target) then Some (false, None)
  else
    let data := strings.Split result ",upperdir=" in
    if (List.length data <? 2)%nat then Some (false, None)
    else
      data0 <-? nth_error data 0 ;;
      lower <-? nth_error (strings.Split data0 ",lowerdir=") 1 ;;
      let lowers := strings.Split lower ":" in
      data1 <-? nth_error data 1 ;;
      upper0 <-? nth_error (strings.Split data1 ",workdir=") 0 ;;
      let upper := strings.TrimSpace upper0 in
      Some (true, Some (mkInfo target upper (utils.Reverse lowers))).

(** [GetMountDetails] *)
Definition GetMountDetails (os : OS) (target : string)
  : option (bool * option Info) :=
  let cmd := "mount | grep " ++ target in
  let '(result, err) := utils_RunSimpleCmd os cmd in
  match err with
  | Some _ => Some (false, None)
  | None => mountCmdResultSplit result target
  end.

(** [ssh.Interface], reduced to the method [Cmd(host, cmd)] used here *)
Record ssh_Interface : Type := mkSSH {
  Cmd : string -> string -> string * option error
}.

(** [GetRemoteMountDetails] *)
Definition GetRemoteMountDetails (s : ssh_Interface) (ip target : string)
  : option (bool * option Info) :=
  let '(result, err) := Cmd s ip ("mount | grep " ++ target) in
  match err with
  | Some _ => Some (false, None)
  | None => mountCmdResultSplit result target
  end.

(** The condition of the first loop of [GetBuildMountInfo] *)
Definition retained (filter : string) (p : PartitionStat) : bool :=
  (Fstype p =? "overlay")
  && strings.Contains (Mountpoint p) "sealer"
  && strings.Contains (Mountpoint p) filter.

(** [GetBuildMountInfo]; [None] when a look-up panics. *)
Definition GetBuildMountInfo (os : OS) (filter : string) : option (list Info) :=
  let '(ps, _) := disk_Partitions os true in
  let mp :=
    fold_left (fun mp p => if retained filter p then (mp ++ [Mountpoint p])%list else mp)
              ps [] in
  fold_left
    (fun acc p =>
       infos <-? acc ;;
       r <-? GetMountDetails os p ;;
       match snd r with
       | Some info => Some (infos ++ [info])%list
       | None => Some infos
       end)
    mp (Some []).

(* ------------------------------------------------------------------ *)
(** ** Auxiliary definitions for the statements *)

Import strings.

(** No instance of [sep] starts inside [a] in the text [a ++ x]. *)
Fixpoint noMatch (a x sep : string) : Prop :=
  match a with
  | "" => True
  | String _ a' => HasPrefix (a ++ x) sep = false /\ noMatch a' x sep
  end.

(** The part of [s] before the first instance of [sep]: the first slice
    that [Split] returns. *)
Definition before (s sep : string) : string :=
  match Index s sep with
  | Some m => take m s
  | None => s
  end.

(** The part of [s] after the first instance of [sep]; empty when there
    is none. *)
Definition after (s sep : string) : string :=
  match Index s sep with
  | Some m => drop (m + String.length sep) s
  | None => ""
  end.

(** A layer directory that the option string can carry: no colon and none
    of the three markers in its name. *)
Definition plainLayer (l : string) : Prop :=
  Contains l ":" = false
  /\ Contains l ",lowerdir=" = false
  /\ Contains l ",upperdir=" = false
  /\ Contains l ",workdir=" = false.

(** An upper directory that the parser gives back unchanged: no marker
    [,upperdir=] or [,workdir=] in its name, and no white space at either
    end. *)
Definition plainUpper (upper : string) : Prop :=
  Contains upper ",upperdir=" = false
  /\ Contains upper ",workdir=" = false
  /\ TrimSpace upper = upper.

(** The text [h] in front of [lowerdir=] ends with the comma that makes
    the marker [,lowerdir=], and holds no earlier marker [,lowerdir=] or
    [,upperdir=]. *)
Definition opensLowerdir (h : string) : Prop :=
  exists p, h = p ++ ","
            /\ Contains p ",lowerdir=" = false
            /\ Contains p ",upperdir=" = false.

(** The index flag [Mount] puts before [lowerdir=]: present exactly when
    [os.Stat] finds the parameter file of the overlay module. *)
Definition indexOff (os : OS) : string :=
  match os_Stat os indexParameter with
  | None => "index=off,"
  | Some _ => ""
  end.

(** The warning [Mount] logs when the probe of the index parameter fails
    for another reason than the absence of the file. *)
Definition probeWarning (os : OS) : list Event :=
  match os_Stat os indexParameter with
  | Some e =>
    if notExist e then []
    else [EvWarn ("Unable to detect whether overlay kernel module supports index parameter: " ++ Error e)]
  | None => []
  end.

Definition procFilesystems : string := "/proc/filesystems".

(** The line of [/proc/filesystems] that announces overlay: [nodev],
    a tab, [overlay]. *)
Definition overlayMarker : string := "nodev" ++ String "009" "overlay".

(** The [data] arguments of the mount system calls of a trace *)
Fixpoint mountCalls (t : list Event) : list string :=
  match t with
  | [] => []
  | EvMount _ _ _ _ data :: t' => data :: mountCalls t'
  | _ :: t' => mountCalls t'
  end.

(** The directories a trace removes *)
Fixpoint removals (t : list Event) : list string :=
  match t with
  | [] => []
  | EvRemoveAll d :: t' => d :: removals t'
  | _ :: t' => removals t'
  end.

(** What one retained mount point adds to the result of
    [GetBuildMountInfo]. *)
Definition parsed (os : OS) (p : string) : list Info :=
  match GetMountDetails os p with
  | Some (_, Some info) => [info]
  | _ => []
  end.

(** The first line of a command output *)
Definition firstLine (out : string) : string := before out (String "010" "").

(** *** Sample hosts *)

Definition ENOENT : error := mkError "no such file or directory" true.
Definition EINVAL : error := mkError "invalid argument" false.
Definition exitStatus1 : error := mkError "exit status 1" false.

(** A host whose kernel has overlay but not the index parameter; every
    call succeeds and [mount | grep] prints [table] when the pattern is
    [pattern], and finds nothing otherwise. *)
Definition oldKernel (pattern table : string) : OS :=
  mkOS (fun _ _ => None)
       (fun _ => inr ["nodev" ++ String "009" "sysfs"; "ext4"; overlayMarker])
       (fun _ => None)
       (fun _ => None)
       (fun _ => Some ENOENT)
       (fun _ => None)
       (fun _ _ _ _ _ => None)
       (fun _ _ => None)
       (fun cmd => if cmd =? "mount | grep " ++ pattern then (table, None)
                   else ("", Some exitStatus1))
       (fun _ => ([], None)).

(** The same host with a recent kernel: the index parameter exists. *)
Definition newKernel (pattern table : string) : OS :=
  let os := oldKernel pattern table in
  mkOS (exec_Run os) (os_Open os) (file_Close os) (utils_Mkdir os)
       (fun _ => None) (os_RemoveAll os) (syscall_Mount os)
       (syscall_Unmount os) (utils_RunSimpleCmd os) (disk_Partitions os).

(** A host that refuses every mount, and fails to remove directories. *)
Definition refusingMount : OS :=
  let os := oldKernel "" "" in
  mkOS (exec_Run os) (os_Open os) (file_Close os) (utils_Mkdir os)
       (os_Stat os) (fun _ => Some EINVAL) (fun _ _ _ _ _ => Some EINVAL)
       (syscall_Unmount os) (utils_RunSimpleCmd os) (disk_Partitions os).

(** A host without the overlay file system. *)
Definition noOverlay : OS :=
  let os := oldKernel "" "" in
  mkOS (exec_Run os) (fun _ => inr ["nodev" ++ String "009" "sysfs"; "ext4"])
       (file_Close os) (utils_Mkdir os) (os_Stat os) (os_RemoveAll os)
       (syscall_Mount os) (syscall_Unmount os) (utils_RunSimpleCmd os)
       (disk_Partitions os).

(** A host where [modprobe overlay] fails. *)
Definition noModprobe : OS :=
  let os := oldKernel "" "" in
  mkOS (fun _ _ => Some exitStatus1) (os_Open os)
       (file_Close os) (utils_Mkdir os) (os_Stat os) (os_RemoveAll os)
       (syscall_Mount os) (syscall_Unmount os) (utils_RunSimpleCmd os)
       (disk_Partitions os).

(** A remote host whose [mount | grep] prints [table] for every pattern. *)
Definition remoteHost (table : string) : ssh_Interface :=
  mkSSH (fun _ _ => (table, None)).

(** A line of the mount table for an overlay mounted on [/merged] with
    the options [data]. *)
Definition overlayLine (data : string) : string :=
  "overlay on /merged type overlay (rw,relatime," ++ data ++ ")".

(** The output of [mount | grep /merged] on a host with a disk mounted on
    [/merged-data] and an overlay on [/merged]. *)
Definition twoLines : string :=
  "/dev/sdb1 on /merged-data type ext4 (rw,relatime)" ++ String "010"
  (overlayLine "lowerdir=b:a,upperdir=/up,workdir=/merged/work" ++ String "010" "").

(** The same with the overlay first. *)
Definition twoLinesOverlayFirst : string :=
  overlayLine "lowerdir=b:a,upperdir=/up,workdir=/merged/work" ++ String "010"
  ("/dev/sdb1 on /merged-data type ext4 (rw,relatime)" ++ String "010" "").

(** A build host with two sealer overlay mounts among its partitions. *)
Definition buildHost : OS :=
  let os := oldKernel "" "" in
  mkOS (exec_Run os) (os_Open os) (file_Close os) (utils_Mkdir os)
       (os_Stat os) (os_RemoveAll os) (syscall_Mount os) (syscall_Unmount os)
       (fun cmd =>
          if cmd =? "mount | grep /var/lib/sealer/tmp/x1" then
            ("overlay on /var/lib/sealer/tmp/x1 type overlay (rw,relatime,lowerdir=/l/2:/l/1,upperdir=/var/lib/sealer/tmp/x1-upper,workdir=/var/lib/sealer/tmp/x1/work)"
               ++ String "010" "", None)
          else if cmd =? "mount | grep /var/lib/sealer/tmp/y2" then
            ("overlay on /var/lib/sealer/tmp/y2 type overlay (rw,relatime,lowerdir=/l/3,upperdir=/var/lib/sealer/tmp/y2-upper,workdir=/var/lib/sealer/tmp/y2/work)"
               ++ String "010" "", None)
          else ("", Some exitStatus1))
       (fun _ =>
          ([mkPartitionStat "/dev/sda1" "/" "ext4" "rw";
            mkPartitionStat "overlay" "/var/lib/sealer/tmp/x1" "overlay" "rw";
            mkPartitionStat "overlay" "/var/lib/docker/overlay2/ab/merged" "overlay" "rw";
            mkPartitionStat "tmpfs" "/var/lib/sealer/tmp/cache" "tmpfs" "rw";
            mkPartitionStat "overlay" "/var/lib/sealer/data/z3" "overlay" "rw";
            mkPartitionStat "overlay" "/var/lib/sealer/tmp/y2" "overlay" "rw"],
           None)).

(** *** Projections of a trace and further hosts *)

(** The warnings a trace logs *)
Fixpoint warnings (t : list Event) : list string :=
  match t with
  | [] => []
  | EvWarn msg :: t' => msg :: warnings t'
  | _ :: t' => warnings t'
  end.

(** The unmount system calls of a trace: target and flags *)
Fixpoint unmountCalls (t : list Event) : list (string * Z) :=
  match t with
  | [] => []
  | EvUnmount target flag :: t' => (target, flag) :: unmountCalls t'
  | _ :: t' => unmountCalls t'
  end.

Definition EACCES : error := mkError "permission denied" false.
Definition EBUSY : error := mkError "device or resource busy" false.

(** A host on which no directory can be created. *)
Definition readOnlyHost : OS :=
  let os := oldKernel "" "" in
  mkOS (exec_Run os) (os_Open os) (file_Close os) (fun _ => Some EACCES)
       (os_Stat os) (os_RemoveAll os) (syscall_Mount os) (syscall_Unmount os)
       (utils_RunSimpleCmd os) (disk_Partitions os).

(** A host on which the index parameter cannot be inspected. *)
Definition hiddenParameter : OS :=
  let os := oldKernel "" "" in
  mkOS (exec_Run os) (os_Open os) (file_Close os) (utils_Mkdir os)
       (fun _ => Some EACCES) (os_RemoveAll os) (syscall_Mount os)
       (syscall_Unmount os) (utils_RunSimpleCmd os) (disk_Partitions os).

(** A host with overlay on which closing [/proc/filesystems] fails. *)
Definition closeFails : OS :=
  let os := oldKernel "" "" in
  mkOS (exec_Run os) (os_Open os) (fun _ => Some EBUSY) (utils_Mkdir os)
       (os_Stat os) (os_RemoveAll os) (syscall_Mount os) (syscall_Unmount os)
       (utils_RunSimpleCmd os) (disk_Partitions os).

(** A host that accepts a mount and refuses the remount, and refuses to
    unmount. *)
Definition refusingRemount : OS :=
  let os := oldKernel "" "" in
  mkOS (exec_Run os) (os_Open os) (file_Close os) (utils_Mkdir os)
       (os_Stat os) (os_RemoveAll os)
       (fun _ _ _ flag _ => if Z.testbit flag 5 then Some EBUSY else None)
       (fun _ _ => Some EBUSY)
       (utils_RunSimpleCmd os) (disk_Partitions os).

(** The build host with one more sealer overlay partition, whose line in
    the mount table has the marker [,upperdir=] and no [,lowerdir=]. *)
Definition brokenBuildHost : OS :=
  let os := buildHost in
  mkOS (exec_Run os) (os_Open os) (file_Close os) (utils_Mkdir os)
       (os_Stat os) (os_RemoveAll os) (syscall_Mount os) (syscall_Unmount os)
       (fun cmd =>
          if cmd =? "mount | grep /var/lib/sealer/tmp/w0" then
            ("none on /var/lib/sealer/tmp/w0 type overlay (upperdir=/u,upperdir=/v)", None)
          else utils_RunSimpleCmd os cmd)
       (fun _ =>
          (mkPartitionStat "overlay" "/var/lib/sealer/tmp/w0" "overlay" "rw"
             :: fst (disk_Partitions os true), None)).

(** A byte below [utf8.RuneSelf] that is not white space *)
Definition plainByte (c : ascii) : Prop :=
  (byteVal c <? utf8.RuneSelf)%Z = true /\ unicode.IsSpace (byteVal c) = false.

(* ------------------------------------------------------------------ *)
(** ** Facts about byte strings *)

Lemma append_assoc (a b c : string) : (a ++ b) ++ c = a ++ b ++ c.
Proof. induction a as [|x a IH]; simpl; [reflexivity | now rewrite IH]. Qed.

Lemma append_nil_r (a : string) : a ++ "" = a.
Proof. induction a as [|x a IH]; simpl; [reflexivity | now rewrite IH]. Qed.

Lemma length_append (a b : string) :
  String.length (a ++ b) = String.length a + String.length b.
Proof. induction a as [|x a IH]; simpl; [reflexivity | now rewrite IH]. Qed.

Lemma take_append (a b : string) : take (String.length a) (a ++ b) = a.
Proof. induction a as [|x a IH]; simpl; [now destruct b | now rewrite IH]. Qed.

Lemma drop_append (a b : string) (n : nat) :
  drop (String.length a + n) (a ++ b) = drop n b.
Proof. induction a as [|x a IH]; simpl; [reflexivity | exact IH]. Qed.

Lemma drop_0 (s : string) : drop 0 s = s.
Proof. now destruct s. Qed.

Lemma length_drop (n : nat) (s : string) :
  String.length (drop n s) = String.length s - n.
Proof.
  revert s; induction n as [|n IH]; intros [|x s]; simpl; auto.
Qed.

Lemma take_append_ge (a b : string) (n : nat) :
  take (String.length a + n) (a ++ b) = a ++ take n b.
Proof. induction a as [|x a IH]; simpl; [reflexivity | now rewrite IH]. Qed.

(** *** HasPrefix *)

Lemma HasPrefix_nil (s : string) : HasPrefix s "" = true.
Proof. now destruct s. Qed.

Lemma HasPrefix_append (p t : string) : HasPrefix (p ++ t) p = true.
Proof.
  induction p as [|x p IH]; simpl; [apply HasPrefix_nil|].
  now rewrite Ascii.eqb_refl, IH.
Qed.

Lemma HasPrefix_length (s p : string) :
  HasPrefix s p = true -> String.length p <= String.length s.
Proof.
  revert s; induction p as [|x p IH]; intros [|y s]; simpl; try lia; try discriminate.
  intros H; apply andb_true_iff in H as [_ H]. apply IH in H. lia.
Qed.

Lemma HasPrefix_long (s p t : string) :
  String.length p <= String.length s -> HasPrefix (s ++ t) p = HasPrefix s p.
Proof.
  revert s; induction p as [|x p IH]; intros [|y s]; simpl; intros H;
    try reflexivity; try lia.
  - now destruct t.
  - f_equal. apply IH. lia.
Qed.

(** A match of [p] cannot run over a byte that [p] does not have. *)
Lemma HasPrefix_miss (c : ascii) (p a t : string) :
  hasByte c p = false -> HasPrefix a p = false ->
  HasPrefix (a ++ String c t) p = false.
Proof.
  revert a; induction p as [|x p IH]; intros a Hc Ha.
  - now rewrite HasPrefix_nil in Ha.
  - simpl in Hc. apply orb_false_iff in Hc as [Hx Hp].
    destruct a as [|y a]; simpl.
    + rewrite Ascii.eqb_sym, Hx. reflexivity.
    + simpl in Ha. apply andb_false_iff in Ha as [Ha | Ha].
      * now rewrite Ha.
      * rewrite (IH a Hp Ha). apply andb_false_r.
Qed.

(** A match of [String c r] that starts inside [a] would end inside [a]
    when [r] has no byte [c] and the text goes on with [c]. *)
Lemma HasPrefix_miss_head (c y : ascii) (r a t : string) :
  hasByte c r = false -> HasPrefix (String y a) (String c r) = false ->
  HasPrefix (String y a ++ String c t) (String c r) = false.
Proof.
  intros Hc Ha. simpl in *.
  apply andb_false_iff in Ha as [Ha | Ha].
  - now rewrite Ha.
  - rewrite (HasPrefix_miss c r a t Hc Ha). apply andb_false_r.
Qed.

(** *** Index *)

Lemma Index_unfold (s sep : string) :
  Index s sep =
  if HasPrefix s sep then Some 0
  else match s with
       | "" => None
       | String _ s' => option_map S (Index s' sep)
       end.
Proof. now destruct s. Qed.

Lemma Index_None_cons (y : ascii) (a sep : string) :
  Index (String y a) sep = None ->
  HasPrefix (String y a) sep = false /\ Index a sep = None.
Proof.
  rewrite Index_unfold. destruct (HasPrefix (String y a) sep); [discriminate|].
  destruct (Index a sep); [discriminate | auto].
Qed.

Lemma Index_None_prefix (s sep : string) :
  Index s sep = None -> HasPrefix s sep = false.
Proof.
  rewrite Index_unfold. now destruct (HasPrefix s sep).
Qed.

Lemma Index_bound (s sep : string) (m : nat) :
  Index s sep = Some m -> m + String.length sep <= String.length s.
Proof.
  revert m; induction s as [|y s IH]; intros m; rewrite Index_unfold.
  - destruct (HasPrefix "" sep) eqn:E; [|discriminate].
    intros [= <-]. now apply HasPrefix_length in E.
  - destruct (HasPrefix (String y s) sep) eqn:E.
    + intros [= <-]. now apply HasPrefix_length in E.
    + destruct (Index s sep) as [k|]; [|discriminate].
      intros [= <-]. specialize (IH k eq_refl). simpl. lia.
Qed.

(** The first instance of [sep] in [s] is the first one in [s ++ t]. *)
Lemma Index_append (s t sep : string) (m : nat) :
  Index s sep = Some m -> Index (s ++ t) sep = Some m.
Proof.
  revert m; induction s as [|y s IH]; intros m H.
  - pose proof (Index_bound _ _ _ H) as B. simpl in B.
    assert (sep = "") by (destruct sep; simpl in B; [reflexivity | lia]).
    subst sep. assert (m = 0) by lia. subst m.
    rewrite Index_unfold, HasPrefix_nil. reflexivity.
  - pose proof (Index_bound _ _ _ H) as B.
    rewrite Index_unfold in H. rewrite Index_unfold.
    rewrite HasPrefix_long by lia.
    destruct (HasPrefix (String y s) sep); [exact H|].
    simpl. destruct (Index s sep) as [k|]; [|discriminate].
    now rewrite (IH k eq_refl).
Qed.

Lemma Index_skip (a x sep : string) :
  noMatch a x sep ->
  Index (a ++ x) sep = option_map (Nat.add (String.length a)) (Index x sep).
Proof.
  induction a as [|y a IH]; intros H.
  - simpl. now destruct (Index x sep).
  - destruct H as [H1 H2]. rewrite Index_unfold, H1. simpl.
    rewrite (IH H2). now destruct (Index x sep).
Qed.

Lemma noMatch_head (c : ascii) (r a t : string) :
  hasByte c r = false -> Index a (String c r) = None ->
  noMatch a (String c t) (String c r).
Proof.
  intros Hc. induction a as [|y a IH]; intros H; [exact I|].
  apply Index_None_cons in H as [H1 H2]. split; [|auto].
  now apply HasPrefix_miss_head.
Qed.

Lemma noMatch_foreign (c : ascii) (sep a t : string) :
  hasByte c sep = false -> Index a sep = None ->
  noMatch a (String c t) sep.
Proof.
  intros Hc. induction a as [|y a IH]; intros H; [exact I|].
  apply Index_None_cons in H as [H1 H2]. split; [|auto].
  now apply (HasPrefix_miss c sep (String y a) t).
Qed.

Lemma noMatch_free (c : ascii) (r a x : string) :
  hasByte c a = false -> noMatch a x (String c r).
Proof.
  induction a as [|y a IH]; intros H; [exact I|].
  simpl in H. apply orb_false_iff in H as [H1 H2]. split; [|auto].
  simpl. now rewrite H1.
Qed.

(** The separator written after a text free of it is its first instance. *)
Lemma Index_first (c : ascii) (r a t : string) :
  hasByte c r = false -> Index a (String c r) = None ->
  Index (a ++ String c r ++ t) (String c r) = Some (String.length a).
Proof.
  intros Hc Ha.
  change (a ++ String c r ++ t) with (a ++ String c (r ++ t)).
  rewrite (Index_skip _ _ _ (noMatch_head c r a (r ++ t) Hc Ha)).
  rewrite Index_unfold.
  change (HasPrefix (String c (r ++ t)) (String c r))
    with (Ascii.eqb c c && HasPrefix (r ++ t) r).
  rewrite Ascii.eqb_refl, HasPrefix_append. simpl. f_equal. lia.
Qed.

(** Past a byte foreign to [sep], instances of [sep] are those of the rest. *)
Lemma Index_foreign (c : ascii) (sep a t : string) :
  hasByte c sep = false -> Index a sep = None ->
  Index (a ++ String c t) sep =
  option_map (fun k => String.length a + S k) (Index t sep).
Proof.
  intros Hc Ha.
  rewrite (Index_skip _ _ _ (noMatch_foreign c sep a t Hc Ha)).
  rewrite Index_unfold.
  assert (HasPrefix (String c t) sep = false) as ->.
  { apply (HasPrefix_miss c sep "" t Hc).
    destruct sep; [|reflexivity].
    rewrite Index_unfold, HasPrefix_nil in Ha. discriminate. }
  now destruct (Index t sep).
Qed.

Lemma Contains_false (s sub : string) :
  Contains s sub = false <-> Index s sub = None.
Proof.
  unfold Contains. destruct (Index s sub); split; congruence.
Qed.

Lemma Contains_true (s sub : string) :
  Contains s sub = true <-> exists m, Index s sub = Some m.
Proof.
  unfold Contains. destruct (Index s sub) as [m|]; split;
    try congruence; eauto.
  intros [m H]; discriminate.
Qed.

(** *** Split *)

Section SplitFacts.

Variables (c : ascii) (r : string).
Let sep := String c r.

Lemma genSplit_fuel (n1 n2 : nat) (s : string) :
  String.length s <= n1 -> String.length s <= n2 ->
  genSplit n1 s sep = genSplit n2 s sep.
Proof.
  revert n2 s; induction n1 as [|n1 IH]; intros [|n2] s H1 H2;
    cbn [genSplit]; try reflexivity.
  - destruct s; [reflexivity | simpl in H1; lia].
  - destruct s; [reflexivity | simpl in H2; lia].
  - destruct (Index s sep) as [m|] eqn:E; [|reflexivity].
    apply Index_bound in E. f_equal.
    apply IH; rewrite length_drop; unfold sep in *; simpl in *; lia.
Qed.

Lemma Split_None (s : string) : Index s sep = None -> Split s sep = [s].
Proof.
  intros H. unfold sep in *. cbn [Split].
  destruct (String.length s); cbn [genSplit]; [reflexivity | now rewrite H].
Qed.

Lemma Split_Some (s : string) (m : nat) :
  Index s sep = Some m ->
  Split s sep = take m s :: Split (drop (m + String.length sep) s) sep.
Proof.
  intros H. pose proof (Index_bound _ _ _ H) as B.
  unfold sep in *. cbn [Split].
  destruct (String.length s) as [|n] eqn:L; [simpl in B; lia|].
  cbn [genSplit]. rewrite H. f_equal.
  apply genSplit_fuel; rewrite length_drop; simpl in *; lia.
Qed.

Lemma Split_before (s : string) :
  nth_error (Split s sep) 0 = Some (before s sep).
Proof.
  unfold before. destruct (Index s sep) as [m|] eqn:E.
  - now rewrite (Split_Some _ _ E).
  - now rewrite (Split_None _ E).
Qed.

Lemma Split_second (s : string) (m : nat) :
  Index s sep = Some m ->
  nth_error (Split s sep) 1 =
  Some (before (drop (m + String.length sep) s) sep).
Proof.
  intros E. rewrite (Split_Some _ _ E). cbn [nth_error].
  apply Split_before.
Qed.

Lemma Split_length (s : string) :
  (List.length (Split s sep) <? 2)%nat = negb (Contains s sep).
Proof.
  unfold Contains. destruct (Index s sep) as [m|] eqn:E.
  - rewrite (Split_Some _ _ E). cbn [List.length].
    pose proof (Split_before (drop (m + String.length sep) s)) as H.
    destruct (Split (drop (m + String.length sep) s) sep); [discriminate|].
    reflexivity.
  - now rewrite (Split_None _ E).
Qed.

Hypothesis head_once : hasByte c r = false.

(** The separator written between [a] and [t], [a] free of it, is where
    [Split] cuts first. *)
Lemma Split_first (a t : string) :
  Index a sep = None ->
  Split (a ++ sep ++ t) sep = a :: Split t sep.
Proof.
  intros Ha.
  pose proof (Index_first c r a t head_once Ha) as E.
  fold sep in E. rewrite (Split_Some _ _ E).
  rewrite take_append.
  replace (drop (String.length a + String.length sep) (a ++ sep ++ t)) with t;
    [reflexivity|].
  rewrite drop_append.
  rewrite <- (Nat.add_0_r (String.length sep)).
  now rewrite drop_append, drop_0.
Qed.

Lemma before_first (a t : string) :
  Index a sep = None -> before (a ++ sep ++ t) sep = a.
Proof.
  intros Ha. unfold before.
  pose proof (Index_first c r a t head_once Ha) as E.
  fold sep in E. rewrite E. apply take_append.
Qed.

End SplitFacts.

(** [before] looks at no more of the text than its first instance of
    [sep]. *)
Lemma before_append (s t sep : string) :
  Contains s sep = true -> before (s ++ t) sep = before s sep.
Proof.
  intros H. apply Contains_true in H as [m H].
  unfold before. rewrite (Index_append _ t _ _ H), H.
  pose proof (Index_bound _ _ _ H) as B.
  assert (m <= String.length s) as Hm by lia. clear - Hm.
  revert m Hm; induction s as [|y s IH]; intros [|m] Hm; simpl in *;
    try reflexivity; try lia.
  f_equal. apply IH. lia.
Qed.

(** *** Join *)

Lemma Join_cons (e e' : string) (es : list string) (sep : string) :
  Join (e :: e' :: es) sep = e ++ sep ++ Join (e' :: es) sep.
Proof. reflexivity. Qed.

(** Splitting at [":"] undoes joining with [":"] when no element holds a
    colon. *)
Lemma Split_Join_colon (e : string) (es : list string) :
  Forall (fun x => Contains x ":" = false) (e :: es) ->
  Split (Join (e :: es) ":") ":" = e :: es.
Proof.
  revert e; induction es as [|e' es IH]; intros e H.
  - inversion H as [|? ? He _]; subst. apply Contains_false in He.
    simpl Join. now apply Split_None.
  - inversion H as [|? ? He Hes]; subst. apply Contains_false in He.
    rewrite Join_cons.
    rewrite (Split_first ":" "" eq_refl _ _ He). f_equal. now apply IH.
Qed.

(** A marker without a colon that is in no element is not in the joined
    list either. *)
Lemma Index_Join_colon (m e : string) (es : list string) :
  hasByte ":" m = false ->
  Forall (fun x => Contains x m = false) (e :: es) ->
  Index (Join (e :: es) ":") m = None.
Proof.
  intros Hm. revert e; induction es as [|e' es IH]; intros e H.
  - inversion H as [|? ? He _]; subst. now apply Contains_false.
  - inversion H as [|? ? He Hes]; subst. apply Contains_false in He.
    rewrite Join_cons. change (":" ++ Join (e' :: es) ":")
      with (String ":" (Join (e' :: es) ":")).
    rewrite (Index_foreign ":" m e _ Hm He), (IH _ Hes). reflexivity.
Qed.

(* ------------------------------------------------------------------ *)
(** ** The work directory *)

Lemma take_append_le (n : nat) (s t : string) :
  n <= String.length s -> take n (s ++ t) = take n s.
Proof.
  revert s; induction n as [|n IH]; intros [|y s] H; simpl in *;
    try reflexivity; try lia.
  f_equal. apply IH. lia.
Qed.

Lemma drop_append_le (n : nat) (s t : string) :
  n <= String.length s -> drop n (s ++ t) = drop n s ++ t.
Proof.
  revert s; induction n as [|n IH]; intros [|x s] H; simpl in *;
    try reflexivity; try lia.
  apply IH. lia.
Qed.

(** With a separator of one byte, the slices of [a ++ sep ++ b] are those
    of [a] followed by those of [b]. *)
Lemma Split_byte_append (c : ascii) (a b : string) :
  Split (a ++ String c "" ++ b) (String c "")
  = (Split a (String c "") ++ Split b (String c ""))%list.
Proof.
  remember (String.length a) as n eqn:Hn.
  assert (String.length a <= n) as Hle by lia. clear Hn.
  revert a Hle; induction n as [|n IH]; intros a Hle.
  - destruct a; [|simpl in Hle; lia].
    rewrite (Split_first c "" eq_refl "" b eq_refl). reflexivity.
  - destruct (Index a (String c "")) as [m|] eqn:E.
    + pose proof (Index_bound _ _ _ E) as B. cbn [String.length] in B.
      rewrite (Split_Some _ _ _ _ E).
      rewrite (Split_Some _ _ _ _ (Index_append _ (String c "" ++ b) _ _ E)).
      cbn [app]. rewrite take_append_le by lia.
      rewrite drop_append_le by (cbn [String.length]; lia).
      f_equal. apply IH. rewrite length_drop. cbn [String.length]. lia.
    + rewrite (Split_first c "" eq_refl a b E), (Split_None _ _ _ E).
      reflexivity.
Qed.

Lemma Join_snoc (xs : list string) (e sep : string) :
  xs <> [] -> Join (xs ++ [e]) sep = Join xs sep ++ sep ++ e.
Proof.
  induction xs as [|x [|y xs] IH]; intros H; [congruence | reflexivity |].
  change (Join ((x :: y :: xs) ++ [e]) sep)
    with (x ++ sep ++ Join ((y :: xs) ++ [e]) sep).
  rewrite IH by discriminate.
  rewrite Join_cons, !append_assoc. reflexivity.
Qed.

(** Cleaning [t/work] is cleaning [t] and adding [/work], unless [t]
    cleans to the root or to the current directory. *)
Lemma Clean_work (t : string) :
  t <> "" -> path.Clean t <> "/" -> path.Clean t <> "." ->
  path.Clean (t ++ "/work") = path.Clean t ++ "/work".
Proof.
  intros Ht. unfold path.Clean.
  apply String.eqb_neq in Ht. rewrite Ht.
  assert ((t ++ "/work" =? "") = false) as -> by (now destruct t).
  assert (1 <= String.length t) as Hlen.
  { destruct t; [discriminate | simpl; lia]. }
  rewrite (HasPrefix_long t "/" "/work" Hlen).
  change (t ++ "/work") with (t ++ "/" ++ "work").
  rewrite (Split_byte_append "/" t "work"), fold_left_app.
  set (rooted := HasPrefix t "/").
  set (out := fold_left (path.cleanStep rooted) (Split t "/") []).
  change (fold_left (path.cleanStep rooted) (Split "work" "/") out)
    with ("work" :: out).
  cbn [rev]. destruct rooted.
  - intros H _. assert (rev out <> []) as Hne.
    { intros E. apply H. now rewrite E. }
    rewrite (Join_snoc _ "work" "/" Hne). now rewrite !append_assoc.
  - destruct out as [|o out]; [congruence|]. intros _ _.
    apply Join_snoc. cbn [rev]. now destruct (rev out).
Qed.

(** The work directory of a target that is already a clean path, other
    than the root and the current directory, is the target followed by
    [/work]. *)
Lemma workdir_clean (target : string) :
  path.Clean target = target -> target <> "/" -> target <> "." ->
  path.Join [target; "work"] = target ++ "/work".
Proof.
  intros Hc H1 H2.
  assert (target <> "") as Ht by (intros ->; discriminate Hc).
  cbn [path.Join]. apply String.eqb_neq in Ht. rewrite Ht.
  apply String.eqb_neq in Ht.
  change (Join [target; "work"] "/") with (target ++ "/work").
  rewrite Clean_work; rewrite ?Hc; auto.
Qed.

(* ------------------------------------------------------------------ *)
(** ** Mount *)

(** A run of [Mount] that passes the argument checks and creates the work
    directory: what it returns and the calls it makes. *)
Lemma Mount_run (os : OS) (target upper : string) (layers : list string) :
  target <> "" -> layers <> [] ->
  utils_Mkdir os (path.Join [target; "work"]) = None ->
  let workdir := path.Join [target; "work"] in
  let data := mountData (indexOff os) layers upper workdir in
  let err := syscall_Mount os "overlay" target "overlay" 0 data in
  Mount os target upper layers =
  (match err with
   | Some e => Some (Errorf ("error creating overlay mount to " ++ target ++ ": " ++ Error e))
   | None => None
   end,
   (EvMkdir workdir :: EvStat indexParameter :: probeWarning os
    ++ [EvDebug ("mount data : " ++ data); EvMount "overlay" target "overlay" 0 data]
    ++ match err with
       | Some _ => [EvRemoveAll workdir]
       | None => []
       end)%list).
Proof.
  intros Ht Hl Hmk workdir data err. subst err data.
  unfold Mount. fold workdir. fold workdir in Hmk.
  apply String.eqb_neq in Ht. rewrite Ht.
  destruct layers as [|l layers]; [congruence|]. cbn [List.length Nat.eqb].
  unfold bind at 1, call at 1. rewrite Hmk.
  unfold Mount_body, indexOff, probeWarning, mount.
  generalize dependent workdir. intros workdir _.
  destruct (os_Stat os indexParameter) as [e|]; cbn [bind call ret app];
    [destruct (notExist e)|]; cbn [bind call ret app];
    match goal with
    | |- context [syscall_Mount os ?a ?b ?c ?d ?x] =>
      destruct (syscall_Mount os a b c d x)
    end; reflexivity.
Qed.

(** C3: [Mount] called with an empty target or with no layer returns the
    error of an invalid argument ("target cannot be empty" or "layers
    cannot be empty") and makes no call at all: no directory is created
    and nothing is mounted. *)
Theorem Mount_invalid_argument (os : OS) (target upper : string)
    (layers : list string) :
  target = "" \/ layers = [] ->
  snd (Mount os target upper layers) = []
  /\ (fst (Mount os target upper layers) = Some (Errorf "target cannot be empty")
      \/ fst (Mount os target upper layers) = Some (Errorf "layers cannot be empty")).
Proof.
  intros [-> | ->].
  - split; [reflexivity | left; reflexivity].
  - unfold Mount. destruct (target =? "").
    + split; [reflexivity | left; reflexivity].
    + split; [reflexivity | right; reflexivity].
Qed.

Lemma Mount_invalid_argument_witness :
  Mount refusingMount "" "/up" ["base"; "app"]
  = (Some (Errorf "target cannot be empty"), [])
  /\ Mount refusingMount "/merged" "/up" []
     = (Some (Errorf "layers cannot be empty"), [])
  /\ snd (Mount refusingMount "" "/up" []) = [].
Proof.
  split; [reflexivity | split; [reflexivity|]].
  exact (proj1 (Mount_invalid_argument refusingMount "" "/up" [] (or_introl eq_refl))).
Defined.

(** C2, amended: in a run of [Mount] on a non-empty target and a
    non-empty layer list that creates the work directory, the one mount
    call gets the option string made of the optional [index=off,] flag,
    [lowerdir=] and the layers in reverse order joined by colons,
    [,upperdir=] and the upper directory, [,workdir=] and the work
    directory [path.Join(target, "work")].  The work directory is the
    target followed by [/work] when the target is a clean path other than
    [/] and [.].  In particular, for the layers [base] and [app], the upper
    directory [/up] and the target [/merged], the flag absent, the option
    string is [lowerdir=app:base,upperdir=/up,workdir=/merged/work]. *)
Theorem Mount_option_string (os : OS) (target upper : string)
    (layers : list string) :
  target <> "" -> layers <> [] ->
  utils_Mkdir os (path.Join [target; "work"]) = None ->
  mountCalls (snd (Mount os target upper layers)) =
  [indexOff os ++ "lowerdir=" ++ Join (rev layers) ":"
     ++ ",upperdir=" ++ upper ++ ",workdir=" ++ path.Join [target; "work"]]
  /\ (indexOff os = "index=off," \/ indexOff os = "")
  /\ (path.Clean target = target -> target <> "/" -> target <> "." ->
      path.Join [target; "work"] = target ++ "/work")
  /\ (indexOff os = "" -> target = "/merged" -> upper = "/up" ->
      layers = ["base"; "app"] ->
      mountCalls (snd (Mount os target upper layers))
      = ["lowerdir=app:base,upperdir=/up,workdir=/merged/work"]).
Proof.
  intros Ht Hl Hmk. rewrite (Mount_run os target upper layers Ht Hl Hmk).
  cbn [snd].
  assert (mountCalls
            (EvMkdir (path.Join [target; "work"]) :: EvStat indexParameter
             :: probeWarning os
             ++ [EvDebug ("mount data : " ++ mountData (indexOff os) layers upper
                                             (path.Join [target; "work"]));
                 EvMount "overlay" target "overlay" 0
                   (mountData (indexOff os) layers upper (path.Join [target; "work"]))]
             ++ match syscall_Mount os "overlay" target "overlay" 0
                        (mountData (indexOff os) layers upper
                           (path.Join [target; "work"])) with
                | Some _ => [EvRemoveAll (path.Join [target; "work"])]
                | None => []
                end)%list
          = [indexOff os ++ "lowerdir=" ++ Join (rev layers) ":"
               ++ ",upperdir=" ++ upper ++ ",workdir=" ++ path.Join [target; "work"]])
    as Hcalls.
  { unfold probeWarning.
    destruct (os_Stat os indexParameter) as [e|]; [destruct (notExist e)|];
      destruct (syscall_Mount _ _ _ _ _ _); reflexivity. }
  split; [exact Hcalls | split; [|split]].
  - unfold indexOff. destruct (os_Stat os indexParameter); auto.
  - apply workdir_clean.
  - intros Hflag -> -> ->. rewrite Hcalls, Hflag. reflexivity.
Qed.

Lemma Mount_option_string_witness :
  mountCalls (snd (Mount (oldKernel "" "") "/merged" "/up" ["base"; "app"]))
  = ["lowerdir=app:base,upperdir=/up,workdir=/merged/work"]
  /\ mountCalls (snd (Mount (newKernel "" "") "/merged" "/up" ["base"; "app"]))
     = ["index=off,lowerdir=app:base,upperdir=/up,workdir=/merged/work"]
  /\ path.Join ["/merged"; "work"] = "/merged" ++ "/work".
Proof.
  split; [|split].
  - refine (proj2 (proj2 (proj2 (Mount_option_string (oldKernel "" "") "/merged" "/up"
                                   ["base"; "app"] _ _ _)))
                  eq_refl eq_refl eq_refl eq_refl);
      [discriminate | discriminate | reflexivity].
  - refine (eq_trans (proj1 (Mount_option_string (newKernel "" "") "/merged" "/up"
                               ["base"; "app"] _ _ _)) _);
      [discriminate | discriminate | reflexivity | reflexivity].
  - refine (proj1 (proj2 (proj2 (Mount_option_string (oldKernel "" "") "/merged" "/up"
                                   ["base"; "app"] _ _ _))) eq_refl _ _);
      discriminate || reflexivity.
Defined.

(** C2 as stated fails: for the non-empty targets [/merged/] and [/] the
    work directory in the option string is [/merged/work] and [/work],
    not the target followed by [/work] ([/merged//work] and [//work]),
    with the index flag or without it. *)
Lemma Mount_option_string_counterexample :
  mountCalls (snd (Mount (oldKernel "" "") "/merged/" "/up" ["base"; "app"]))
  = ["lowerdir=app:base,upperdir=/up,workdir=/merged/work"]
  /\ mountCalls (snd (Mount (oldKernel "" "") "/merged/" "/up" ["base"; "app"]))
     <> ["" ++ "lowerdir=" ++ Join (rev ["base"; "app"]) ":"
           ++ ",upperdir=" ++ "/up" ++ ",workdir=" ++ "/merged/" ++ "/work"]
  /\ mountCalls (snd (Mount (oldKernel "" "") "/merged/" "/up" ["base"; "app"]))
     <> ["index=off," ++ "lowerdir=" ++ Join (rev ["base"; "app"]) ":"
           ++ ",upperdir=" ++ "/up" ++ ",workdir=" ++ "/merged/" ++ "/work"]
  /\ mountCalls (snd (Mount (newKernel "" "") "/" "/up" ["base"; "app"]))
     = ["index=off,lowerdir=app:base,upperdir=/up,workdir=/work"]
  /\ mountCalls (snd (Mount (newKernel "" "") "/" "/up" ["base"; "app"]))
     <> ["index=off," ++ "lowerdir=" ++ Join (rev ["base"; "app"]) ":"
           ++ ",upperdir=" ++ "/up" ++ ",workdir=" ++ "/" ++ "/work"]
  /\ mountCalls (snd (Mount (newKernel "" "") "/" "/up" ["base"; "app"]))
     <> ["" ++ "lowerdir=" ++ Join (rev ["base"; "app"]) ":"
           ++ ",upperdir=" ++ "/up" ++ ",workdir=" ++ "/" ++ "/work"].
Proof.
  split; [reflexivity|]. split; [discriminate|]. split; [discriminate|].
  split; [reflexivity|]. split; discriminate.
Qed.

(** C4: in a run of [Mount] that passes the argument checks and creates
    the work directory, a failing mount call makes [Mount] call
    [os.RemoveAll] on the work directory as its last action, whatever
    that call answers, and return the error "error creating overlay mount
    to <target>: <cause>"; a succeeding mount call makes [Mount] return no
    error and remove nothing, the work directory having been created
    first. *)
Theorem Mount_syscall_outcome (os : OS) (target upper : string)
    (layers : list string) :
  target <> "" -> layers <> [] ->
  utils_Mkdir os (path.Join [target; "work"]) = None ->
  let workdir := path.Join [target; "work"] in
  let data := mountData (indexOff os) layers upper workdir in
  let run := Mount os target upper layers in
  hd_error (snd run) = Some (EvMkdir workdir)
  /\ match syscall_Mount os "overlay" target "overlay" 0 data with
     | Some cause =>
       fst run = Some (Errorf ("error creating overlay mount to " ++ target
                               ++ ": " ++ Error cause))
       /\ removals (snd run) = [workdir]
       /\ exists t, snd run = (t ++ [EvMount "overlay" target "overlay" 0 data;
                                      EvRemoveAll workdir])%list
     | None =>
       fst run = None
       /\ removals (snd run) = []
       /\ exists t, snd run = (t ++ [EvMount "overlay" target "overlay" 0 data])%list
     end.
Proof.
  intros Ht Hl Hmk workdir data run. subst run.
  rewrite (Mount_run os target upper layers Ht Hl Hmk).
  fold workdir. fold data. cbn [fst snd hd_error]. split; [reflexivity|].
  assert (removals (probeWarning os) = []) as Hw.
  { unfold probeWarning. destruct (os_Stat os indexParameter) as [e|];
      [destruct (notExist e)|]; reflexivity. }
  assert (forall t1 t2, removals (t1 ++ t2) = (removals t1 ++ removals t2)%list) as Happ.
  { induction t1 as [|[] t1 IH]; intros t2; cbn; rewrite ?IH; reflexivity. }
  destruct (syscall_Mount os "overlay" target "overlay" 0 data) as [cause|].
  - split; [reflexivity | split].
    + cbn [removals]. rewrite Happ, Hw. reflexivity.
    + exists (EvMkdir workdir :: EvStat indexParameter
              :: probeWarning os ++ [EvDebug ("mount data : " ++ data)])%list.
      cbn [app]. rewrite <- !app_assoc. reflexivity.
  - split; [reflexivity | split].
    + cbn [removals]. rewrite Happ, Hw. reflexivity.
    + exists (EvMkdir workdir :: EvStat indexParameter
              :: probeWarning os ++ [EvDebug ("mount data : " ++ data)])%list.
      cbn [app]. rewrite <- !app_assoc. reflexivity.
Qed.

Lemma Mount_syscall_outcome_witness :
  Mount refusingMount "/merged" "/up" ["base"; "app"]
  = (Some (Errorf "error creating overlay mount to /merged: invalid argument"),
     [EvMkdir "/merged/work"; EvStat indexParameter;
      EvDebug "mount data : lowerdir=app:base,upperdir=/up,workdir=/merged/work";
      EvMount "overlay" "/merged" "overlay" 0
              "lowerdir=app:base,upperdir=/up,workdir=/merged/work";
      EvRemoveAll "/merged/work"])
  /\ fst (Mount (oldKernel "" "") "/merged" "/up" ["base"; "app"]) = None
  /\ removals (snd (Mount (oldKernel "" "") "/merged" "/up" ["base"; "app"])) = [].
Proof.
  split; [reflexivity|].
  pose proof (Mount_syscall_outcome (oldKernel "" "") "/merged" "/up" ["base"; "app"]) as H.
  cbv zeta in H.
  destruct H as [_ H]; [discriminate | discriminate | reflexivity |].
  change (syscall_Mount (oldKernel "" "") "overlay" "/merged" "overlay" 0
            (mountData (indexOff (oldKernel "" "")) ["base"; "app"] "/up"
               (path.Join ["/merged"; "work"])))
    with (@None error) in H.
  cbv iota beta in H.
  exact (conj (proj1 H) (proj1 (proj2 H))).
Defined.

(* ------------------------------------------------------------------ *)
(** ** Driver selection *)

Lemma existsb_marker (lines : list string) :
  ~ In overlayMarker lines ->
  existsb (fun text => text =? overlayMarker) lines = false.
Proof.
  intros H. apply not_true_is_false. intros E.
  apply existsb_exists in E as [x [Hx E]].
  apply String.eqb_eq in E. now subst x.
Qed.

(** C5: [NewMountDriver] returns the fallback driver whenever the probe
    reports that overlay is not supported, which it does when loading the
    module fails, when the registry of file systems cannot be opened, and
    when the registry has no line equal to the marker [nodev<tab>overlay];
    with such a registry the overlay driver is never returned.  It returns
    the overlay driver when the probe reports support. *)
Theorem NewMountDriver_selection (os : OS) :
  (supportsOverlay os = Returned false -> NewMountDriver os = Returned Default)
  /\ (supportsOverlay os = Returned true -> NewMountDriver os = Returned Overlay2)
  /\ (exec_Run os "modprobe" ["overlay"] <> None ->
      NewMountDriver os = Returned Default)
  /\ (forall e, os_Open os procFilesystems = inl e ->
      NewMountDriver os = Returned Default)
  /\ (forall lines, os_Open os procFilesystems = inr lines ->
      ~ In overlayMarker lines ->
      NewMountDriver os <> Returned Overlay2
      /\ (file_Close os procFilesystems = None ->
          NewMountDriver os = Returned Default)).
Proof.
  unfold NewMountDriver, supportsOverlay.
  change "/proc/filesystems" with procFilesystems.
  change ("nodev" ++ String "009" "overlay") with overlayMarker.
  repeat split.
  - now intros ->.
  - now intros ->.
  - destruct (exec_Run os "modprobe" ["overlay"]); [reflexivity | congruence].
  - intros e ->. now destruct (exec_Run os "modprobe" ["overlay"]).
  - rewrite H, (existsb_marker _ H0).
    destruct (exec_Run os "modprobe" ["overlay"]); [discriminate|].
    destruct (file_Close os procFilesystems); discriminate.
  - intros Hc. rewrite H, (existsb_marker _ H0), Hc.
    now destruct (exec_Run os "modprobe" ["overlay"]).
Qed.

Lemma NewMountDriver_selection_witness :
  NewMountDriver noModprobe = Returned Default
  /\ NewMountDriver noOverlay = Returned Default
  /\ NewMountDriver (oldKernel "" "") = Returned Overlay2.
Proof.
  split; [|split].
  - apply (proj1 (proj2 (proj2 (NewMountDriver_selection noModprobe)))).
    discriminate.
  - refine (proj2 (proj2 (proj2 (proj2 (proj2 (NewMountDriver_selection noOverlay))))
                     ["nodev" ++ String "009" "sysfs"; "ext4"] eq_refl _) eq_refl).
    intros [H | [H | []]]; discriminate.
  - apply (proj1 (proj2 (NewMountDriver_selection (oldKernel "" "")))).
    reflexivity.
Defined.

(* ------------------------------------------------------------------ *)
(** ** The parser *)

(** C6: the parser returns [found = false] and no [Info] for a line that
    does not contain the target, and for a line without the marker
    [,upperdir=]. *)
Theorem mountCmdResultSplit_not_found (result target : string) :
  Contains result target = false \/ Contains result ",upperdir=" = false ->
  mountCmdResultSplit result target = Some (false, None).
Proof.
  intros H. unfold mountCmdResultSplit.
  destruct (Contains result target); [|reflexivity].
  destruct H as [H | H]; [discriminate|].
  cbn [negb]. rewrite Split_length, H. reflexivity.
Qed.

Lemma mountCmdResultSplit_not_found_witness :
  mountCmdResultSplit "proc on /proc type proc (rw,nosuid,nodev,noexec,relatime)"
                      "/merged" = Some (false, None)
  /\ mountCmdResultSplit "tmpfs on /merged type tmpfs (rw,relatime,size=1024k)"
                         "/merged" = Some (false, None).
Proof.
  split; apply mountCmdResultSplit_not_found; [left | right]; reflexivity.
Defined.

(** C9, at the failing input: the option string that [Mount] builds on a
    kernel without the index parameter contains the target and the marker
    [,upperdir=] but not the marker [,lowerdir=]; splitting the part
    before [,upperdir=] yields one field, and the access to the second
    field is out of range: the parser panics. *)
Theorem mountCmdResultSplit_index_out_of_range :
  Contains "lowerdir=b:a,upperdir=/up,workdir=/merged/work" "/merged" = true
  /\ Contains "lowerdir=b:a,upperdir=/up,workdir=/merged/work" ",upperdir=" = true
  /\ Contains "lowerdir=b:a,upperdir=/up,workdir=/merged/work" ",lowerdir=" = false
  /\ Split (before "lowerdir=b:a,upperdir=/up,workdir=/merged/work" ",upperdir=")
           ",lowerdir=" = ["lowerdir=b:a"]
  /\ mountCalls (snd (Mount (oldKernel "" "") "/merged" "/up" ["a"; "b"]))
     = ["lowerdir=b:a,upperdir=/up,workdir=/merged/work"]
  /\ mountCmdResultSplit "lowerdir=b:a,upperdir=/up,workdir=/merged/work" "/merged"
     = None.
Proof. repeat split. Qed.

(** The access is out of range on every such line. *)
Lemma mountCmdResultSplit_panics (result target : string) :
  Contains result target = true ->
  Contains result ",upperdir=" = true ->
  Contains (before result ",upperdir=") ",lowerdir=" = false ->
  mountCmdResultSplit result target = None.
Proof.
  intros Ht Hu Hl. unfold mountCmdResultSplit.
  rewrite Ht, Split_length, Hu. cbn [negb].
  rewrite Split_before. cbn [obind].
  apply Contains_false in Hl. rewrite (Split_None _ _ _ Hl). reflexivity.
Qed.

(** The two shapes of a result of the parser. *)
Lemma mountCmdResultSplit_inv (result target : string) (found : bool)
    (info : option Info) :
  mountCmdResultSplit result target = Some (found, info) ->
  (found = false /\ info = None)
  \/ (found = true /\ exists upper lowers, info = Some (mkInfo target upper lowers)).
Proof.
  unfold mountCmdResultSplit.
  destruct (negb (Contains result target)); [intros [= <- <-]; auto|].
  destruct (List.length (Split result ",upperdir=") <? 2)%nat;
    [intros [= <- <-]; auto|].
  destruct (nth_error (Split result ",upperdir=") 0) as [d0|]; [|discriminate].
  cbn [obind].
  destruct (nth_error (Split d0 ",lowerdir=") 1); [|discriminate].
  cbn [obind].
  destruct (nth_error (Split result ",upperdir=") 1) as [d1|]; [|discriminate].
  cbn [obind].
  destruct (nth_error (Split d1 ",workdir=") 0); [|discriminate].
  cbn [obind]. intros [= <- <-]. right. eauto.
Qed.

(** C10: when the parser returns [found = true], the [Target] of the
    [Info] it returns is the queried target itself, whatever mount point
    the line names. *)
Theorem mountCmdResultSplit_target (result target : string)
    (info : option Info) :
  mountCmdResultSplit result target = Some (true, info) ->
  exists upper lowers, info = Some (mkInfo target upper lowers).
Proof.
  intros H. apply mountCmdResultSplit_inv in H as [[H _] | [_ H]];
    [discriminate | exact H].
Qed.

Lemma mountCmdResultSplit_target_witness :
  exists upper lowers,
    Some (mkInfo "merged" "/up" ["a"; "b"]) = Some (mkInfo "merged" upper lowers).
Proof.
  apply (mountCmdResultSplit_target
           "overlay on /var/lib/merged-1 type overlay (rw,relatime,lowerdir=b:a,upperdir=/up,workdir=/var/lib/merged-1/work)"
           "merged").
  reflexivity.
Defined.

(* ------------------------------------------------------------------ *)
(** ** Enumeration of the build mounts *)

Lemma GetMountDetails_inv (os : OS) (target : string) (found : bool)
    (info : Info) :
  GetMountDetails os target = Some (found, Some info) ->
  found = true /\ Target info = target.
Proof.
  unfold GetMountDetails.
  destruct (utils_RunSimpleCmd os ("mount | grep " ++ target)) as [result [e|]];
    [discriminate|].
  intros H. apply mountCmdResultSplit_inv in H as [[_ H] | [Hf [u [l H]]]];
    [discriminate|].
  injection H as ->. auto.
Qed.

(** The first loop keeps the mount points of the retained partitions, in
    the order of the enumeration. *)
Lemma retained_mountpoints (filter : string) (ps : list PartitionStat)
    (mp : list string) :
  fold_left (fun mp p => if retained filter p then (mp ++ [Mountpoint p])%list else mp)
            ps mp
  = (mp ++ map Mountpoint (List.filter (retained filter) ps))%list.
Proof.
  revert mp; induction ps as [|p ps IH]; intros mp; cbn [fold_left List.filter map].
  - now rewrite app_nil_r.
  - rewrite IH. destruct (retained filter p); [|reflexivity].
    cbn [map]. now rewrite <- app_assoc.
Qed.

Section Collect.

Variable os : OS.

Let step (acc : option (list Info)) (p : string) : option (list Info) :=
  infos <-? acc ;;
  r <-? GetMountDetails os p ;;
  match snd r with
  | Some info => Some (infos ++ [info])%list
  | None => Some infos
  end.

Lemma collect_panic (mp : list string) : fold_left step mp None = None.
Proof. induction mp as [|p mp IH]; [reflexivity | exact IH]. Qed.

(** The second loop appends, mount point after mount point, the
    [Info] of each look-up that yields one. *)
Lemma collect_some (mp : list string) (acc infos : list Info) :
  fold_left step mp (Some acc) = Some infos ->
  infos = (acc ++ flat_map (parsed os) mp)%list.
Proof.
  revert acc; induction mp as [|p mp IH]; intros acc; cbn [fold_left flat_map].
  - intros [= <-]. now rewrite app_nil_r.
  - unfold step at 2, parsed at 1. cbn [obind].
    destruct (GetMountDetails os p) as [[found [info|]]|]; cbn [obind snd].
    + intros H. apply IH in H. now rewrite <- app_assoc in H.
    + intros H. now apply IH in H.
    + rewrite collect_panic. discriminate.
Qed.

(** It returns when no look-up panics. *)
Lemma collect_total (mp : list string) (acc : list Info) :
  Forall (fun p => GetMountDetails os p <> None) mp ->
  fold_left step mp (Some acc) = Some (acc ++ flat_map (parsed os) mp)%list.
Proof.
  intros H; revert acc; induction H as [|p mp Hp _ IH]; intros acc;
    cbn [fold_left flat_map].
  - now rewrite app_nil_r.
  - unfold step at 2, parsed at 1. cbn [obind].
    destruct (GetMountDetails os p) as [[found [info|]]|]; cbn [obind snd].
    + rewrite IH. now rewrite <- app_assoc.
    + apply IH.
    + congruence.
Qed.

End Collect.

(** C8: the list [GetBuildMountInfo] returns holds, in the order of the
    enumeration, the [Info] of each look-up that yields one, the look-ups
    being made for the partitions of type "overlay" whose mount point
    contains "sealer" and the filter; so every entry comes from such a
    partition, and bears its mount point as [Target]. *)
Theorem GetBuildMountInfo_entries (os : OS) (filter : string)
    (infos : list Info) :
  GetBuildMountInfo os filter = Some infos ->
  let ps := fst (disk_Partitions os true) in
  infos = flat_map (parsed os) (map Mountpoint (List.filter (retained filter) ps))
  /\ Forall (fun info =>
               exists p, In p ps
                 /\ Fstype p = "overlay"
                 /\ Contains (Mountpoint p) "sealer" = true
                 /\ Contains (Mountpoint p) filter = true
                 /\ Target info = Mountpoint p
                 /\ GetMountDetails os (Mountpoint p) = Some (true, Some info))
            infos.
Proof.
  unfold GetBuildMountInfo.
  destruct (disk_Partitions os true) as [ps e]. cbn [fst].
  rewrite retained_mountpoints. cbn [app].
  intros H. apply collect_some in H. cbn [app] in H. subst infos.
  split; [reflexivity|].
  apply Forall_forall. intros info Hin.
  apply in_flat_map in Hin as [mp [Hmp Hin]].
  apply in_map_iff in Hmp as [p [<- Hp]].
  apply filter_In in Hp as [Hp Hr].
  unfold retained in Hr.
  apply andb_true_iff in Hr as [Hr H3]. apply andb_true_iff in Hr as [H1 H2].
  apply String.eqb_eq in H1.
  unfold parsed in Hin.
  destruct (GetMountDetails os (Mountpoint p)) as [[found [i|]]|] eqn:E;
    try contradiction.
  destruct Hin as [-> | []].
  destruct (GetMountDetails_inv _ _ _ _ E) as [-> Ht].
  exists p. repeat split; assumption.
Qed.

(** [GetBuildMountInfo] returns whenever none of its look-ups panics. *)
Lemma GetBuildMountInfo_total (os : OS) (filter : string) :
  Forall (fun p => retained filter p = true ->
                   GetMountDetails os (Mountpoint p) <> None)
         (fst (disk_Partitions os true)) ->
  GetBuildMountInfo os filter <> None.
Proof.
  unfold GetBuildMountInfo.
  destruct (disk_Partitions os true) as [ps e]. cbn [fst].
  rewrite retained_mountpoints. cbn [app]. intros H.
  rewrite collect_total; [discriminate|].
  apply Forall_forall. intros mp Hmp.
  apply in_map_iff in Hmp as [p [<- Hp]].
  apply filter_In in Hp as [Hp Hr].
  rewrite Forall_forall in H. now apply H.
Qed.

Lemma GetBuildMountInfo_entries_witness :
  [mkInfo "/var/lib/sealer/tmp/x1" "/var/lib/sealer/tmp/x1-upper" ["/l/1"; "/l/2"];
   mkInfo "/var/lib/sealer/tmp/y2" "/var/lib/sealer/tmp/y2-upper" ["/l/3"]]
  = flat_map (parsed buildHost)
      ["/var/lib/sealer/tmp/x1"; "/var/lib/sealer/tmp/y2"].
Proof.
  exact (proj1 (GetBuildMountInfo_entries buildHost "tmp" _ eq_refl)).
Defined.

(* ------------------------------------------------------------------ *)
(** ** The parser on the option string of Mount *)

Lemma take_drop (n : nat) (s : string) : take n s ++ drop n s = s.
Proof.
  revert s; induction n as [|n IH]; intros [|x s]; simpl; try reflexivity.
  now rewrite IH.
Qed.

(** Past a literal that has no byte [c], the instances of [String c r]
    are those of the rest. *)
Lemma Index_literal (c : ascii) (r q x : string) :
  hasByte c q = false ->
  Index (q ++ x) (String c r) =
  option_map (Nat.add (String.length q)) (Index x (String c r)).
Proof.
  intros H. apply Index_skip. now apply noMatch_free.
Qed.

(** The parser, with its slices named by what they hold. *)
Lemma mountCmdResultSplit_unfold (result target : string) :
  mountCmdResultSplit result target =
  if negb (Contains result target) then Some (false, None)
  else if negb (Contains result ",upperdir=") then Some (false, None)
  else
    lower <-? nth_error (Split (before result ",upperdir=") ",lowerdir=") 1 ;;
    Some (true,
          Some (mkInfo target
                  (TrimSpace (before (before (after result ",upperdir=") ",upperdir=")
                                     ",workdir="))
                  (utils.Reverse (Split lower ":")))).
Proof.
  unfold mountCmdResultSplit.
  destruct (negb (Contains result target)); [reflexivity|].
  rewrite Split_length.
  destruct (Contains result ",upperdir=") eqn:E; cbn [negb]; [|reflexivity].
  apply Contains_true in E as [m E].
  rewrite Split_before. cbn [obind].
  destruct (nth_error (Split (before result ",upperdir=") ",lowerdir=") 1);
    [|reflexivity].
  cbn [obind]. rewrite (Split_second _ _ _ _ E). cbn [obind].
  rewrite Split_before. cbn [obind]. unfold after. rewrite E. reflexivity.
Qed.

Section RoundTrip.

Variables (p upper rest : string) (layers : list string).

Hypothesis layers_nonempty : layers <> [].
Hypothesis layers_plain : Forall plainLayer layers.
Hypothesis p_lowerdir : Contains p ",lowerdir=" = false.
Hypothesis p_upperdir : Contains p ",upperdir=" = false.
Hypothesis upper_upperdir : Contains upper ",upperdir=" = false.
Hypothesis upper_workdir : Contains upper ",workdir=" = false.

Let joined : string := Join (utils.Reverse layers) ":".

(** the text before the marker [,upperdir=] written by [Mount] *)
Let front : string := p ++ ",lowerdir=" ++ joined.

(** the text after it *)
Let back : string := upper ++ ",workdir=" ++ rest.

Lemma reversed_cons : exists e es, utils.Reverse layers = e :: es.
Proof.
  unfold utils.Reverse. destruct (rev layers) as [|e es] eqn:E; [|eauto].
  apply (f_equal (@rev string)) in E. rewrite rev_involutive in E.
  now destruct layers_nonempty.
Qed.

Lemma reversed_plain : Forall plainLayer (utils.Reverse layers).
Proof.
  apply Forall_forall. intros l Hl. apply in_rev in Hl.
  revert l Hl. now apply Forall_forall.
Qed.

Lemma joined_split : Split joined ":" = utils.Reverse layers.
Proof.
  unfold joined. pose proof reversed_plain as H.
  destruct reversed_cons as [e [es E]]. rewrite E in *.
  apply Split_Join_colon. revert H. apply Forall_impl. now intros l [H _].
Qed.

Lemma joined_lowerdir : Index joined ",lowerdir=" = None.
Proof.
  unfold joined. pose proof reversed_plain as H.
  destruct reversed_cons as [e [es E]]. rewrite E in *.
  apply Index_Join_colon; [reflexivity|].
  revert H. apply Forall_impl. now intros l (_ & H & _).
Qed.

Lemma joined_upperdir : Index joined ",upperdir=" = None.
Proof.
  unfold joined. pose proof reversed_plain as H.
  destruct reversed_cons as [e [es E]]. rewrite E in *.
  apply Index_Join_colon; [reflexivity|].
  revert H. apply Forall_impl. now intros l (_ & _ & H & _).
Qed.

Lemma front_upperdir : Index front ",upperdir=" = None.
Proof.
  unfold front. apply Contains_false in p_upperdir.
  change (p ++ ",lowerdir=" ++ joined) with (p ++ String "," ("lowerdir=" ++ joined)).
  rewrite (Index_skip _ _ _ (noMatch_head "," "upperdir=" p ("lowerdir=" ++ joined)
                                eq_refl p_upperdir)).
  rewrite Index_unfold.
  change (HasPrefix (String "," ("lowerdir=" ++ joined)) ",upperdir=") with false.
  cbv iota.
  rewrite (Index_literal "," "upperdir=" "lowerdir=" joined eq_refl).
  now rewrite joined_upperdir.
Qed.

Lemma front_split : Split front ",lowerdir=" = [p; joined].
Proof.
  unfold front. apply Contains_false in p_lowerdir.
  rewrite (Split_first "," "lowerdir=" eq_refl _ _ p_lowerdir).
  now rewrite (Split_None _ _ _ joined_lowerdir).
Qed.

(** The slice after the marker [,upperdir=] still begins with the upper
    directory and the marker [,workdir=]. *)
Lemma back_before : exists z, before back ",upperdir=" = upper ++ ",workdir=" ++ z.
Proof.
  unfold before, back. apply Contains_false in upper_upperdir.
  change (upper ++ ",workdir=" ++ rest) with (upper ++ String "," ("workdir=" ++ rest)).
  rewrite (Index_skip _ _ _ (noMatch_head "," "upperdir=" upper ("workdir=" ++ rest)
                                eq_refl upper_upperdir)).
  rewrite Index_unfold.
  change (HasPrefix (String "," ("workdir=" ++ rest)) ",upperdir=") with false.
  cbv iota.
  rewrite (Index_literal "," "upperdir=" "workdir=" rest eq_refl).
  destruct (Index rest ",upperdir=") as [j|]; cbn [option_map].
  - exists (take j rest).
    rewrite take_append_ge.
    change (String "," ("workdir=" ++ rest)) with (",workdir=" ++ rest).
    change (S (String.length "workdir=" + j)) with (String.length ",workdir=" + j).
    now rewrite take_append_ge.
  - now exists rest.
Qed.

Lemma back_upper : before (before back ",upperdir=") ",workdir=" = upper.
Proof.
  destruct back_before as [z ->]. apply Contains_false in upper_workdir.
  now apply (before_first "," "workdir=" eq_refl).
Qed.

(** The parser on a text made of [front], the marker and [back]. *)
Lemma parse_front_back (target : string) :
  Contains (front ++ ",upperdir=" ++ back) target = true ->
  mountCmdResultSplit (front ++ ",upperdir=" ++ back) target =
  Some (true, Some (mkInfo target (TrimSpace upper) layers)).
Proof.
  intros Ht. rewrite mountCmdResultSplit_unfold, Ht. cbn [negb].
  pose proof (Index_first "," "upperdir=" front back eq_refl front_upperdir) as E.
  unfold Contains, after. rewrite E. cbn [negb].
  rewrite (before_first "," "upperdir=" eq_refl _ _ front_upperdir).
  rewrite front_split. cbn [nth_error obind].
  rewrite drop_append.
  change (String.length ",upperdir=") with (String.length ",upperdir=" + 0).
  rewrite drop_append, drop_0.
  rewrite back_upper, joined_split.
  unfold utils.Reverse. now rewrite rev_involutive.
Qed.

End RoundTrip.

(** The option string of the one mount call of a run of [Mount]. *)
Lemma Mount_mountCalls (os : OS) (target upper : string) (layers : list string) :
  target <> "" -> layers <> [] ->
  utils_Mkdir os (path.Join [target; "work"]) = None ->
  mountCalls (snd (Mount os target upper layers)) =
  [mountData (indexOff os) layers upper (path.Join [target; "work"])].
Proof.
  intros Ht Hl Hmk. rewrite (Mount_run os target upper layers Ht Hl Hmk).
  cbn [snd]. unfold probeWarning.
  destruct (os_Stat os indexParameter) as [e|]; [destruct (notExist e)|];
    destruct (syscall_Mount _ _ _ _ _ _); reflexivity.
Qed.

(** A run of [Mount] makes a mount call only past the argument checks and
    the creation of the work directory. *)
Lemma Mount_mountCalls_inv (os : OS) (target upper : string)
    (layers : list string) (data : string) :
  mountCalls (snd (Mount os target upper layers)) = [data] ->
  target <> "" /\ layers <> []
  /\ data = mountData (indexOff os) layers upper (path.Join [target; "work"]).
Proof.
  intros H.
  assert (target <> "") as Ht.
  { intros ->. discriminate H. }
  assert (layers <> []) as Hl.
  { intros ->. unfold Mount in H. destruct (target =? ""); discriminate H. }
  destruct (utils_Mkdir os (path.Join [target; "work"])) as [e|] eqn:Hmk.
  - exfalso. unfold Mount in H. apply String.eqb_neq in Ht. rewrite Ht in H.
    destruct layers; [congruence|]. cbn [List.length Nat.eqb] in H.
    unfold bind at 1, call at 1 in H. rewrite Hmk in H. discriminate H.
  - rewrite (Mount_mountCalls os target upper layers Ht Hl Hmk) in H.
    injection H as <-. auto.
Qed.

(** C1, amended: take the option string [data] that a run of [Mount]
    hands to the mount call, for layers without colon and without the
    three markers, and for an upper directory without the markers
    [,upperdir=] and [,workdir=] and without white space at its ends.  On
    every text [head ++ data ++ tail] that contains the target and in which
    [lowerdir=] is preceded by a comma, with no marker [,lowerdir=] or
    [,upperdir=] before that comma, the parser returns [found = true], the
    original layer list and the original upper directory. *)
Theorem Mount_parse_roundtrip (os : OS) (target upper : string)
    (layers : list string) (data head tail : string) :
  mountCalls (snd (Mount os target upper layers)) = [data] ->
  Forall plainLayer layers ->
  plainUpper upper ->
  opensLowerdir (head ++ indexOff os) ->
  Contains (head ++ data ++ tail) target = true ->
  mountCmdResultSplit (head ++ data ++ tail) target =
  Some (true, Some (mkInfo target upper layers)).
Proof.
  intros Hrun Hlayers (Hu1 & Hu2 & Htrim) (p & Hp & Hp1 & Hp2) Ht.
  apply Mount_mountCalls_inv in Hrun as (_ & Hne & ->).
  set (workdir := path.Join [target; "work"]) in *.
  assert (head ++ mountData (indexOff os) layers upper workdir ++ tail
          = (p ++ ",lowerdir=" ++ Join (utils.Reverse layers) ":")
              ++ ",upperdir=" ++ upper ++ ",workdir=" ++ workdir ++ tail) as E.
  { unfold mountData. rewrite (append_assoc (indexOff os)).
    rewrite <- (append_assoc head (indexOff os)), Hp.
    rewrite !append_assoc. reflexivity. }
  rewrite E in *.
  rewrite (parse_front_back p upper (workdir ++ tail) layers
             Hne Hlayers Hp1 Hp2 Hu1 Hu2 target Ht).
  now rewrite Htrim.
Qed.

Lemma Mount_parse_roundtrip_witness :
  mountCmdResultSplit
    "overlay on /merged type overlay (rw,relatime,lowerdir=app:base,upperdir=/up,workdir=/merged/work)"
    "/merged"
  = Some (true, Some (mkInfo "/merged" "/up" ["base"; "app"]))
  /\ mountCmdResultSplit
       "index=off,lowerdir=app:base,upperdir=/up,workdir=/merged/work" "/merged"
     = Some (true, Some (mkInfo "/merged" "/up" ["base"; "app"])).
Proof.
  split.
  - apply (Mount_parse_roundtrip (oldKernel "" "") "/merged" "/up" ["base"; "app"]
             "lowerdir=app:base,upperdir=/up,workdir=/merged/work"
             "overlay on /merged type overlay (rw,relatime," ")").
    + reflexivity.
    + repeat constructor.
    + repeat split.
    + exists "overlay on /merged type overlay (rw,relatime". repeat split.
    + reflexivity.
  - apply (Mount_parse_roundtrip (newKernel "" "") "/merged" "/up" ["base"; "app"]
             "index=off,lowerdir=app:base,upperdir=/up,workdir=/merged/work"
             "" "").
    + reflexivity.
    + repeat constructor.
    + repeat split.
    + exists "index=off". repeat split.
    + reflexivity.
Defined.

(** C1 as stated fails: an upper directory that begins with a space, or
    that holds the marker [,workdir=], does not come back from the line
    built from the option string of [Mount], although the layers have no
    colon and no marker and the line contains the target. *)
Lemma Mount_parse_roundtrip_counterexample :
  Forall plainLayer ["base"; "app"]
  /\ (mountCalls (snd (Mount (oldKernel "" "") "/merged" " /up" ["base"; "app"]))
      = ["lowerdir=app:base,upperdir= /up,workdir=/merged/work"]
      /\ Contains (overlayLine "lowerdir=app:base,upperdir= /up,workdir=/merged/work")
                  "/merged" = true
      /\ mountCmdResultSplit
           (overlayLine "lowerdir=app:base,upperdir= /up,workdir=/merged/work")
           "/merged"
         = Some (true, Some (mkInfo "/merged" "/up" ["base"; "app"]))
      /\ ~ (exists info,
              mountCmdResultSplit
                (overlayLine "lowerdir=app:base,upperdir= /up,workdir=/merged/work")
                "/merged" = Some (true, Some info)
              /\ Lowers info = ["base"; "app"] /\ Upper info = " /up"))
  /\ (mountCalls (snd (Mount (oldKernel "" "") "/merged" "/up,workdir=x" ["base"; "app"]))
      = ["lowerdir=app:base,upperdir=/up,workdir=x,workdir=/merged/work"]
      /\ Contains (overlayLine "lowerdir=app:base,upperdir=/up,workdir=x,workdir=/merged/work")
                  "/merged" = true
      /\ mountCmdResultSplit
           (overlayLine "lowerdir=app:base,upperdir=/up,workdir=x,workdir=/merged/work")
           "/merged"
         = Some (true, Some (mkInfo "/merged" "/up" ["base"; "app"]))
      /\ ~ (exists info,
              mountCmdResultSplit
                (overlayLine "lowerdir=app:base,upperdir=/up,workdir=x,workdir=/merged/work")
                "/merged" = Some (true, Some info)
              /\ Lowers info = ["base"; "app"] /\ Upper info = "/up,workdir=x")).
Proof.
  split; [repeat constructor|].
  split; (split; [reflexivity | split; [reflexivity | split; [reflexivity|]]]).
  - intros (info & H & _ & Hu).
    vm_compute in H. injection H as <-. discriminate Hu.
  - intros (info & H & _ & Hu).
    vm_compute in H. injection H as <-. discriminate Hu.
Qed.

(* ------------------------------------------------------------------ *)
(** ** Looking a target up in the mount table *)

Lemma HasPrefix_split (s p : string) :
  HasPrefix s p = true -> s = p ++ drop (String.length p) s.
Proof.
  revert s; induction p as [|x p IH]; intros [|y s]; simpl;
    try reflexivity; try discriminate.
  intros H. apply andb_true_iff in H as [H1 H2].
  apply Ascii.eqb_eq in H1. subst y. f_equal. now apply IH.
Qed.

Lemma Index_prefix (s sep : string) (m : nat) :
  Index s sep = Some m -> HasPrefix (drop m s) sep = true.
Proof.
  revert m; induction s as [|y s IH]; intros m; rewrite Index_unfold.
  - destruct (HasPrefix "" sep) eqn:E; [|discriminate]. now intros [= <-].
  - destruct (HasPrefix (String y s) sep) eqn:E.
    + now intros [= <-].
    + destruct (Index s sep) as [k|]; [|discriminate].
      intros [= <-]. now apply IH.
Qed.

(** A text is its part before the first [sep], then [sep] and the rest,
    or has no [sep] at all. *)
Lemma before_split (s sep : string) :
  s = before s sep \/ exists rest, s = before s sep ++ sep ++ rest.
Proof.
  unfold before. destruct (Index s sep) as [m|] eqn:E; [right | now left].
  exists (drop (String.length sep) (drop m s)).
  rewrite <- (HasPrefix_split _ _ (Index_prefix _ _ _ E)).
  symmetry. apply take_drop.
Qed.

Lemma Contains_append (s t sub : string) :
  Contains s sub = true -> Contains (s ++ t) sub = true.
Proof.
  intros H. apply Contains_true in H as [m H]. apply Contains_true.
  exists m. now apply Index_append.
Qed.

Lemma after_append (s t sep : string) :
  Contains s sep = true -> after (s ++ t) sep = after s sep ++ t.
Proof.
  intros H. apply Contains_true in H as [m H]. unfold after.
  rewrite (Index_append _ t _ _ H), H.
  apply drop_append_le. now apply Index_bound.
Qed.

(** Text added after a byte foreign to [sep] leaves the part before the
    first [sep], or lengthens it when there was no [sep]. *)
Lemma before_foreign (c : ascii) (sep b t : string) :
  hasByte c sep = false ->
  exists z, before (b ++ String c t) sep = before b sep ++ z.
Proof.
  intros Hc. destruct (Index b sep) as [m|] eqn:E.
  - exists "". rewrite append_nil_r. apply before_append.
    apply Contains_true. eauto.
  - unfold before at 2. rewrite E. unfold before.
    rewrite (Index_foreign c sep b t Hc E).
    destruct (Index t sep) as [k|]; cbn [option_map].
    + exists (take (S k) (String c t)). apply take_append_ge.
    + now exists (String c t).
Qed.

(** The parser looks no further than the first line when that line has
    the markers [,upperdir=] and, after it, [,workdir=]. *)
Lemma mountCmdResultSplit_first_line (out target : string) :
  Contains (firstLine out) target = true ->
  Contains (firstLine out) ",upperdir=" = true ->
  Contains (after (firstLine out) ",upperdir=") ",workdir=" = true ->
  mountCmdResultSplit out target = mountCmdResultSplit (firstLine out) target.
Proof.
  unfold firstLine.
  destruct (before_split out (String "010" "")) as [H | [rest H]].
  - now rewrite <- H.
  - generalize dependent (before out (String "010" "")). intros l1 -> Ht Hu Hw.
    change (String "010" "" ++ rest) with (String "010" rest).
    rewrite !mountCmdResultSplit_unfold.
    rewrite (Contains_append _ _ _ Ht), (Contains_append _ _ _ Hu), Ht, Hu.
    cbn [negb].
    rewrite (before_append _ _ _ Hu), (after_append _ _ _ Hu).
    destruct (Contains (after l1 ",upperdir=") ",upperdir=") eqn:E.
    + now rewrite (before_append _ _ _ E).
    + destruct (before_foreign "010" ",upperdir=" (after l1 ",upperdir=") rest eq_refl)
        as [z ->].
      apply Contains_false in E.
      assert (before (after l1 ",upperdir=") ",upperdir=" = after l1 ",upperdir=")
        as -> by (unfold before; now rewrite E).
      now rewrite (before_append _ z _ Hw).
Qed.

(** C7, amended: whenever the query command succeeds, [GetMountDetails]
    and [GetRemoteMountDetails] hand its whole output to the parser:
    their result is that of parsing the whole output.  When moreover the
    first line of the output contains the target, the marker
    [,upperdir=] and, after it, the marker [,workdir=], the result is
    that of parsing this first line alone. *)
Theorem GetMountDetails_first_line (os : OS) (s : ssh_Interface)
    (ip target out : string) :
  (utils_RunSimpleCmd os ("mount | grep " ++ target) = (out, None) ->
   GetMountDetails os target = mountCmdResultSplit out target)
  /\ (Cmd s ip ("mount | grep " ++ target) = (out, None) ->
      GetRemoteMountDetails s ip target = mountCmdResultSplit out target)
  /\ (Contains (firstLine out) target = true ->
      Contains (firstLine out) ",upperdir=" = true ->
      Contains (after (firstLine out) ",upperdir=") ",workdir=" = true ->
      (utils_RunSimpleCmd os ("mount | grep " ++ target) = (out, None) ->
       GetMountDetails os target = mountCmdResultSplit (firstLine out) target)
      /\ (Cmd s ip ("mount | grep " ++ target) = (out, None) ->
          GetRemoteMountDetails s ip target
          = mountCmdResultSplit (firstLine out) target)).
Proof.
  assert (utils_RunSimpleCmd os ("mount | grep " ++ target) = (out, None) ->
          GetMountDetails os target = mountCmdResultSplit out target) as Hlocal.
  { intros Hcmd. unfold GetMountDetails. now rewrite Hcmd. }
  assert (Cmd s ip ("mount | grep " ++ target) = (out, None) ->
          GetRemoteMountDetails s ip target = mountCmdResultSplit out target)
    as Hremote.
  { intros Hcmd. unfold GetRemoteMountDetails. now rewrite Hcmd. }
  split; [exact Hlocal | split; [exact Hremote|]].
  intros Ht Hu Hw.
  pose proof (mountCmdResultSplit_first_line out target Ht Hu Hw) as E.
  split; intros Hcmd.
  - rewrite <- E. now apply Hlocal.
  - rewrite <- E. now apply Hremote.
Qed.

Lemma GetMountDetails_first_line_witness :
  firstLine twoLinesOverlayFirst
  = overlayLine "lowerdir=b:a,upperdir=/up,workdir=/merged/work"
  /\ GetMountDetails (oldKernel "/merged" twoLinesOverlayFirst) "/merged"
     = mountCmdResultSplit (firstLine twoLinesOverlayFirst) "/merged"
  /\ GetRemoteMountDetails (remoteHost twoLinesOverlayFirst) "10.0.0.2" "/merged"
     = mountCmdResultSplit (firstLine twoLinesOverlayFirst) "/merged"
  /\ mountCmdResultSplit (firstLine twoLinesOverlayFirst) "/merged"
     = Some (true, Some (mkInfo "/merged" "/up" ["a"; "b"]))
  /\ GetMountDetails (oldKernel "/merged" twoLines) "/merged"
     = mountCmdResultSplit twoLines "/merged"
  /\ GetRemoteMountDetails (remoteHost twoLines) "10.0.0.2" "/merged"
     = mountCmdResultSplit twoLines "/merged".
Proof.
  pose proof (GetMountDetails_first_line (oldKernel "/merged" twoLinesOverlayFirst)
                (remoteHost twoLinesOverlayFirst) "10.0.0.2" "/merged"
                twoLinesOverlayFirst) as (_ & _ & H).
  destruct (H eq_refl eq_refl eq_refl) as [H1 H2].
  pose proof (GetMountDetails_first_line (oldKernel "/merged" twoLines)
                (remoteHost twoLines) "10.0.0.2" "/merged" twoLines)
    as (W1 & W2 & _).
  split; [reflexivity|].
  split; [exact (H1 eq_refl)|].
  split; [exact (H2 eq_refl)|].
  split; [reflexivity|].
  split; [exact (W1 eq_refl) | exact (W2 eq_refl)].
Defined.

(** C7 as stated fails: on an output whose first line matches the target
    without being an overlay entry, the look-ups return the layers of a
    later line, where parsing the first matching line alone finds
    nothing. *)
Lemma GetMountDetails_first_line_counterexample :
  firstLine twoLines = "/dev/sdb1 on /merged-data type ext4 (rw,relatime)"
  /\ Contains (firstLine twoLines) "/merged" = true
  /\ mountCmdResultSplit (firstLine twoLines) "/merged" = Some (false, None)
  /\ GetMountDetails (oldKernel "/merged" twoLines) "/merged"
     = Some (true, Some (mkInfo "/merged" "/up" ["a"; "b"]))
  /\ GetRemoteMountDetails (remoteHost twoLines) "10.0.0.2" "/merged"
     = Some (true, Some (mkInfo "/merged" "/up" ["a"; "b"]))
  /\ GetMountDetails (oldKernel "/merged" twoLines) "/merged"
     <> mountCmdResultSplit (firstLine twoLines) "/merged"
  /\ GetRemoteMountDetails (remoteHost twoLines) "10.0.0.2" "/merged"
     <> mountCmdResultSplit (firstLine twoLines) "/merged".
Proof.
  repeat split; discriminate.
Qed.


(* ------------------------------------------------------------------ *)
(** ** Mount: the work directory and the probe of the index parameter *)

(** A run of [Mount] that cannot create the work directory. *)
Lemma Mount_stops_at_mkdir (os : OS) (target upper : string)
    (layers : list string) (cause : error) :
  target <> "" -> layers <> [] ->
  utils_Mkdir os (path.Join [target; "work"]) = Some cause ->
  Mount os target upper layers
  = (Some (Errorf "create workdir failed"), [EvMkdir (path.Join [target; "work"])]).
Proof.
  intros Ht Hl Hmk. unfold Mount.
  apply String.eqb_neq in Ht. rewrite Ht.
  destruct layers as [|l layers]; [congruence|]. cbn [List.length Nat.eqb].
  unfold bind at 1, call at 1. rewrite Hmk. reflexivity.
Qed.

(** X1: when the work directory cannot be created, [Mount] on a non-empty
    target and a non-empty layer list returns the error "create workdir
    failed", whatever the reason of the failure, and the attempt to create
    the directory is the only call it makes: nothing is inspected,
    mounted or removed. *)
Theorem Mount_mkdir_failure (os : OS) (target upper : string)
    (layers : list string) (cause : error) :
  target <> "" -> layers <> [] ->
  utils_Mkdir os (path.Join [target; "work"]) = Some cause ->
  fst (Mount os target upper layers) = Some (Errorf "create workdir failed")
  /\ snd (Mount os target upper layers) = [EvMkdir (path.Join [target; "work"])]
  /\ mountCalls (snd (Mount os target upper layers)) = []
  /\ removals (snd (Mount os target upper layers)) = [].
Proof.
  intros Ht Hl Hmk.
  rewrite (Mount_stops_at_mkdir os target upper layers cause Ht Hl Hmk).
  repeat split.
Qed.

Lemma Mount_mkdir_failure_witness :
  Mount readOnlyHost "/merged" "/up" ["base"; "app"]
  = (Some (Errorf "create workdir failed"), [EvMkdir "/merged/work"]).
Proof.
  pose proof (Mount_mkdir_failure readOnlyHost "/merged" "/up" ["base"; "app"] EACCES)
    as (A & B & _); [discriminate | discriminate | reflexivity |].
  rewrite (surjective_pairing (Mount readOnlyHost "/merged" "/up" ["base"; "app"])).
  now rewrite A, B.
Defined.

Lemma warnings_app (t1 t2 : list Event) :
  warnings (t1 ++ t2) = (warnings t1 ++ warnings t2)%list.
Proof.
  induction t1 as [|[] t1 IH]; cbn; rewrite ?IH; reflexivity.
Qed.

(** X2: a failure of [os.Stat] on the index parameter never fails
    [Mount].  The option string then starts with [lowerdir=] (no index
    flag), [Mount] returns no error exactly when the mount call for that
    string succeeds, and one warning is logged when the failure is not the
    absence of the file, none when it is. *)
Theorem Mount_probe_failure (os : OS) (target upper : string)
    (layers : list string) (e : error) :
  target <> "" -> layers <> [] ->
  utils_Mkdir os (path.Join [target; "work"]) = None ->
  os_Stat os indexParameter = Some e ->
  let data := mountData "" layers upper (path.Join [target; "work"]) in
  mountCalls (snd (Mount os target upper layers)) = [data]
  /\ HasPrefix data "lowerdir=" = true
  /\ (fst (Mount os target upper layers) = None
      <-> syscall_Mount os "overlay" target "overlay" 0 data = None)
  /\ warnings (snd (Mount os target upper layers))
     = if notExist e then []
       else ["Unable to detect whether overlay kernel module supports index parameter: "
               ++ Error e].
Proof.
  intros Ht Hl Hmk Hst data.
  rewrite (Mount_run os target upper layers Ht Hl Hmk).
  unfold indexOff, probeWarning. rewrite Hst. fold data. cbn [fst snd].
  split; [|split; [exact (HasPrefix_append "lowerdir=" _) | split; [split|]]].
  - destruct (notExist e);
      destruct (syscall_Mount os "overlay" target "overlay" 0 data); reflexivity.
  - destruct (syscall_Mount os "overlay" target "overlay" 0 data);
      [discriminate | reflexivity].
  - intros ->. reflexivity.
  - destruct (notExist e);
      destruct (syscall_Mount os "overlay" target "overlay" 0 data); reflexivity.
Qed.

Lemma Mount_probe_failure_witness :
  mountCalls (snd (Mount hiddenParameter "/merged" "/up" ["base"; "app"]))
  = ["lowerdir=app:base,upperdir=/up,workdir=/merged/work"]
  /\ warnings (snd (Mount hiddenParameter "/merged" "/up" ["base"; "app"]))
     = ["Unable to detect whether overlay kernel module supports index parameter: permission denied"]
  /\ warnings (snd (Mount (oldKernel "" "") "/merged" "/up" ["base"; "app"])) = [].
Proof.
  pose proof (Mount_probe_failure hiddenParameter "/merged" "/up" ["base"; "app"] EACCES)
    as H1.
  pose proof (Mount_probe_failure (oldKernel "" "") "/merged" "/up" ["base"; "app"] ENOENT)
    as H2.
  cbv zeta in H1, H2.
  destruct H1 as (A & _ & _ & B); [discriminate | discriminate | reflexivity | reflexivity |].
  destruct H2 as (_ & _ & _ & C); [discriminate | discriminate | reflexivity | reflexivity |].
  exact (conj A (conj B C)).
Defined.

(* ------------------------------------------------------------------ *)
(** ** The mount helper and Unmount *)

Lemma land_pow2_eqb (a n : Z) :
  (0 <= n)%Z -> (Z.land a (2 ^ n) =? 2 ^ n)%Z = Z.testbit a n.
Proof.
  intros Hn. destruct (Z.testbit a n) eqn:E.
  - apply Z.eqb_eq. apply Z.bits_inj'. intros m Hm.
    rewrite Z.land_spec, Z.pow2_bits_eqb by lia.
    destruct (Z.eqb_spec n m) as [<-|]; [now rewrite E | apply andb_false_r].
  - apply Z.eqb_neq. intros H.
    assert (Z.testbit (Z.land a (2 ^ n)) n = true) as T.
    { rewrite H, Z.pow2_bits_eqb by lia. apply Z.eqb_refl. }
    rewrite Z.land_spec, E in T. discriminate.
Qed.

(** X3: the helper [mount] issues the system call once, and a second time
    exactly when the first call succeeded and the flags have both the bit
    of [MS_BIND] (bit 12) and the bit of [MS_RDONLY] (bit 0).  The second
    call has the same arguments with the bit of [MS_REMOUNT] (bit 5)
    added, and its result is the result of [mount]; an error of the first
    call is returned as it is. *)
Theorem mount_remount (os : OS) (device target mType : string) (flag : Z)
    (data : string) :
  mount os device target mType flag data =
  match syscall_Mount os device target mType flag data with
  | Some e => (Some e, [EvMount device target mType flag data])
  | None =>
    if Z.testbit flag 12 && Z.testbit flag 0
    then (syscall_Mount os device target mType (Z.lor flag MS_REMOUNT) data,
          [EvMount device target mType flag data;
           EvMount device target mType (Z.lor flag MS_REMOUNT) data])
    else (None, [EvMount device target mType flag data])
  end
  /\ (forall n, (0 <= n)%Z ->
      Z.testbit (Z.lor flag MS_REMOUNT) n = Z.testbit flag n || (n =? 5)%Z).
Proof.
  split.
  - unfold mount, bind, call, ret.
    change MS_BIND with (2 ^ 12)%Z. change MS_RDONLY with (2 ^ 0)%Z.
    rewrite !land_pow2_eqb by lia.
    destruct (syscall_Mount os device target mType flag data); [reflexivity|].
    destruct (Z.testbit flag 12 && Z.testbit flag 0); reflexivity.
  - intros n Hn. rewrite Z.lor_spec. change MS_REMOUNT with (2 ^ 5)%Z.
    rewrite Z.pow2_bits_eqb by lia. now rewrite (Z.eqb_sym n 5).
Qed.

Lemma mount_remount_witness :
  mount refusingRemount "/src" "/dst" "none" 4097 ""
  = (Some EBUSY, [EvMount "/src" "/dst" "none" 4097 "";
                  EvMount "/src" "/dst" "none" 4129 ""])
  /\ mount refusingRemount "/src" "/dst" "none" 4096 ""
     = (None, [EvMount "/src" "/dst" "none" 4096 ""])
  /\ Z.testbit (Z.lor 4097 MS_REMOUNT) 5 = true.
Proof.
  split; [|split].
  - exact (proj1 (mount_remount refusingRemount "/src" "/dst" "none" 4097 "")).
  - exact (proj1 (mount_remount refusingRemount "/src" "/dst" "none" 4096 "")).
  - refine (eq_trans (proj2 (mount_remount refusingRemount "/src" "/dst" "none" 4097 "")
                            5%Z _) eq_refl). lia.
Defined.

Lemma removals_app (t1 t2 : list Event) :
  removals (t1 ++ t2) = (removals t1 ++ removals t2)%list.
Proof.
  induction t1 as [|[] t1 IH]; cbn; rewrite ?IH; reflexivity.
Qed.

Lemma removals_probeWarning (os : OS) : removals (probeWarning os) = [].
Proof.
  unfold probeWarning. destruct (os_Stat os indexParameter) as [e|];
    [destruct (notExist e)|]; reflexivity.
Qed.

(** X4: every call of [Unmount] makes one system call, a forced unmount
    ([MNT_FORCE]) of the target, and returns its result as it is; it
    removes no directory.  So after a [Mount] that succeeded and the
    [Unmount] of the same target, the work directory that [Mount] created
    has not been removed by either. *)
Theorem Mount_Unmount_keep_workdir (os : OS) (target upper : string)
    (layers : list string) :
  Unmount os target = (syscall_Unmount os target MNT_FORCE, [EvUnmount target MNT_FORCE])
  /\ unmountCalls (snd (Unmount os target)) = [(target, 1%Z)]
  /\ removals (snd (Unmount os target)) = []
  /\ (fst (Mount os target upper layers) = None ->
      hd_error (snd (Mount os target upper layers))
      = Some (EvMkdir (path.Join [target; "work"]))
      /\ removals (snd (Mount os target upper layers) ++ snd (Unmount os target)) = []).
Proof.
  split; [reflexivity | split; [reflexivity | split; [reflexivity|]]].
  intros Hok.
  assert (target <> "") as Ht.
  { intros ->. discriminate Hok. }
  assert (layers <> []) as Hl.
  { intros ->. unfold Mount in Hok. destruct (target =? ""); discriminate Hok. }
  destruct (utils_Mkdir os (path.Join [target; "work"])) as [e|] eqn:Hmk.
  - rewrite (Mount_stops_at_mkdir os target upper layers e Ht Hl Hmk) in Hok.
    discriminate Hok.
  - rewrite (Mount_run os target upper layers Ht Hl Hmk) in *.
    cbn [fst snd] in *. split; [reflexivity|].
    destruct (syscall_Mount os "overlay" target "overlay" 0
                (mountData (indexOff os) layers upper (path.Join [target; "work"])));
      [discriminate Hok|].
    cbn [removals app]. rewrite !removals_app, removals_probeWarning. reflexivity.
Qed.

Lemma Mount_Unmount_keep_workdir_witness :
  Unmount refusingMount "/merged" = (None, [EvUnmount "/merged" 1])
  /\ Unmount refusingRemount "" = (Some EBUSY, [EvUnmount "" 1])
  /\ removals (snd (Mount refusingRemount "/merged" "/up" ["base"; "app"])
               ++ snd (Unmount refusingRemount "/merged")) = [].
Proof.
  split; [|split].
  - exact (proj1 (Mount_Unmount_keep_workdir refusingMount "/merged" "/up"
                    ["base"; "app"])).
  - exact (proj1 (Mount_Unmount_keep_workdir refusingRemount "" "/up" [])).
  - exact (proj2 (proj2 (proj2 (proj2 (Mount_Unmount_keep_workdir refusingRemount
                                          "/merged" "/up" ["base"; "app"])))
                        eq_refl)).
Defined.

(* ------------------------------------------------------------------ *)
(** ** Which driver, and when none *)

(** X5: [NewMountDriver] returns the overlay driver exactly when loading
    the module succeeds, [/proc/filesystems] opens, one of its lines is
    the marker [nodev<tab>overlay] and closing the file succeeds.  It
    returns nothing, the process being ended, exactly when the module
    loads, the file opens and closing it fails, whatever the lines. *)
Theorem NewMountDriver_outcome (os : OS) :
  (NewMountDriver os = Returned Overlay2
   <-> exec_Run os "modprobe" ["overlay"] = None
       /\ exists lines, os_Open os procFilesystems = inr lines
                        /\ In overlayMarker lines
                        /\ file_Close os procFilesystems = None)
  /\ (NewMountDriver os = Exited
      <-> exec_Run os "modprobe" ["overlay"] = None
          /\ exists lines, os_Open os procFilesystems = inr lines
                           /\ file_Close os procFilesystems <> None).
Proof.
  unfold NewMountDriver, supportsOverlay.
  change "/proc/filesystems" with procFilesystems.
  change ("nodev" ++ String "009" "overlay") with overlayMarker.
  destruct (exec_Run os "modprobe" ["overlay"]) as [e|].
  { split; split; try discriminate; intros [H _]; discriminate H. }
  destruct (os_Open os procFilesystems) as [e|lines].
  { split; split; try discriminate; intros [_ [l [H _]]]; discriminate H. }
  destruct (file_Close os procFilesystems) as [e|].
  { split; split; try discriminate.
    - intros [_ [l (_ & _ & H)]]. discriminate H.
    - intros _. split; [reflexivity|]. exists lines. split; [reflexivity | discriminate].
    - reflexivity. }
  destruct (existsb (fun text => text =? overlayMarker) lines) eqn:E.
  - split; split; try discriminate; try (intros _; reflexivity).
    + intros _. split; [reflexivity|]. exists lines.
      apply existsb_exists in E as [x [Hx E]]. apply String.eqb_eq in E. subst x.
      auto.
    + intros [_ [l (_ & H)]]. now destruct H.
  - split; split; try discriminate; try (intros _; reflexivity).
    + intros [_ [l (Hl & Hin & _)]]. injection Hl as <-.
      assert (existsb (fun text => text =? overlayMarker) lines = true) as T.
      { apply existsb_exists. exists overlayMarker. split; [exact Hin|].
        apply String.eqb_refl. }
      congruence.
    + intros [_ [l (_ & H)]]. now destruct H.
Qed.

Lemma NewMountDriver_outcome_witness :
  NewMountDriver (oldKernel "" "") = Returned Overlay2
  /\ NewMountDriver closeFails = Exited.
Proof.
  split.
  - apply (proj1 (NewMountDriver_outcome (oldKernel "" ""))).
    split; [reflexivity|].
    exists ["nodev" ++ String "009" "sysfs"; "ext4"; overlayMarker].
    split; [reflexivity | split; [|reflexivity]].
    right; right; left; reflexivity.
  - apply (proj2 (NewMountDriver_outcome closeFails)).
    split; [reflexivity|].
    exists ["nodev" ++ String "009" "sysfs"; "ext4"; overlayMarker].
    split; [reflexivity | discriminate].
Defined.

(* ------------------------------------------------------------------ *)
(** ** The three outcomes of the parser *)

(** The second slice of the part before [,upperdir=]. *)
Lemma lower_field (d : string) :
  nth_error (Split d ",lowerdir=") 1 =
  if Contains d ",lowerdir=" then Some (before (after d ",lowerdir=") ",lowerdir=")
  else None.
Proof.
  unfold Contains, after. destruct (Index d ",lowerdir=") as [m|] eqn:E.
  - apply (Split_second _ _ _ _ E).
  - now rewrite (Split_None _ _ _ E).
Qed.

(** The parser, by cases on what the text contains. *)
Lemma mountCmdResultSplit_cases (result target : string) :
  mountCmdResultSplit result target =
  if negb (Contains result target) then Some (false, None)
  else if negb (Contains result ",upperdir=") then Some (false, None)
  else if negb (Contains (before result ",upperdir=") ",lowerdir=") then None
  else
    Some (true,
          Some (mkInfo target
                  (TrimSpace (before (before (after result ",upperdir=") ",upperdir=")
                                     ",workdir="))
                  (utils.Reverse
                     (Split (before (after (before result ",upperdir=") ",lowerdir=")
                                    ",lowerdir=") ":")))).
Proof.
  rewrite mountCmdResultSplit_unfold, lower_field.
  destruct (negb (Contains result target)); [reflexivity|].
  destruct (negb (Contains result ",upperdir=")); [reflexivity|].
  now destruct (Contains (before result ",upperdir=") ",lowerdir=").
Qed.

(** X6: the parser has three outcomes.  It returns [found = false]
    exactly when the text lacks the target or the marker [,upperdir=];
    it panics exactly when the text has both and the part before the
    first [,upperdir=] has no marker [,lowerdir=]; it returns
    [found = true] with an [Info] exactly when the text has the target,
    the marker [,upperdir=] and, before it, the marker [,lowerdir=]. *)
Theorem mountCmdResultSplit_outcome (result target : string) :
  (mountCmdResultSplit result target = Some (false, None)
   <-> Contains result target = false \/ Contains result ",upperdir=" = false)
  /\ (mountCmdResultSplit result target = None
      <-> Contains result target = true
          /\ Contains result ",upperdir=" = true
          /\ Contains (before result ",upperdir=") ",lowerdir=" = false)
  /\ ((exists info, mountCmdResultSplit result target = Some (true, Some info))
      <-> Contains result target = true
          /\ Contains result ",upperdir=" = true
          /\ Contains (before result ",upperdir=") ",lowerdir=" = true).
Proof.
  rewrite mountCmdResultSplit_cases.
  destruct (Contains result target); cbn [negb];
    [destruct (Contains result ",upperdir="); cbn [negb];
     [destruct (Contains (before result ",upperdir=") ",lowerdir="); cbn [negb]|]|];
    repeat split; intros;
    repeat match goal with
           | H : _ \/ _ |- _ => destruct H
           | H : _ /\ _ |- _ => destruct H
           | H : exists _, _ |- _ => destruct H
           end;
    try discriminate; eauto.
Qed.

Lemma mountCmdResultSplit_outcome_witness :
  mountCmdResultSplit "overlay on /m type overlay (rw,upperdir=/u,workdir=/m/work)" "/m"
  = None
  /\ mountCmdResultSplit "overlay on /m type overlay (rw,upperdir=/u,workdir=/m/work)" "/n"
     = Some (false, None)
  /\ exists info,
       mountCmdResultSplit
         "overlay on /m type overlay (rw,lowerdir=/l,upperdir=/u,workdir=/m/work)" "/m"
       = Some (true, Some info).
Proof.
  split; [|split].
  - apply (proj1 (proj2 (mountCmdResultSplit_outcome _ _))). repeat split.
  - apply (proj1 (mountCmdResultSplit_outcome _ _)). left. reflexivity.
  - apply (proj2 (proj2 (mountCmdResultSplit_outcome _ _))). repeat split.
Defined.

(** X7: the layers and the upper directory that the parser reports do
    not depend on the target asked for: when the parser finds a mount for
    one target, it finds the same layers and upper directory for every
    other target that the text contains, with that target as [Target]. *)
Theorem mountCmdResultSplit_any_target (result target other : string)
    (info : Info) :
  mountCmdResultSplit result target = Some (true, Some info) ->
  Contains result other = true ->
  mountCmdResultSplit result other
  = Some (true, Some (mkInfo other (Upper info) (Lowers info))).
Proof.
  rewrite !mountCmdResultSplit_cases. intros H Ho. rewrite Ho. cbn [negb].
  destruct (negb (Contains result target)); [discriminate H|].
  destruct (negb (Contains result ",upperdir=")); [discriminate H|].
  destruct (negb (Contains (before result ",upperdir=") ",lowerdir="));
    [discriminate H|].
  injection H as <-. reflexivity.
Qed.

Lemma mountCmdResultSplit_any_target_witness :
  mountCmdResultSplit twoLines "/merged-data"
  = Some (true, Some (mkInfo "/merged-data" "/up" ["a"; "b"])).
Proof.
  apply (mountCmdResultSplit_any_target twoLines "/merged" "/merged-data"
           (mkInfo "/merged" "/up" ["a"; "b"])); reflexivity.
Defined.

(* ------------------------------------------------------------------ *)
(** ** What the parser reports *)

Lemma length_take (n : nat) (s : string) : String.length (take n s) <= n.
Proof.
  revert s; induction n as [|n IH]; intros [|x s]; simpl; try lia.
  specialize (IH s). lia.
Qed.

Lemma drop_drop (a b : nat) (s : string) : drop a (drop b s) = drop (b + a) s.
Proof.
  revert s; induction b as [|b IH]; intros s; simpl.
  - reflexivity.
  - destruct s; [now destruct a | apply IH].
Qed.

Lemma Index_drop_None (s sep : string) (j : nat) :
  Index s sep = None -> Index (drop j s) sep = None.
Proof.
  revert s; induction j as [|j IH]; intros s H; [now rewrite drop_0|].
  destruct s as [|y s]; [exact H|].
  apply Index_None_cons in H as [_ H]. simpl. now apply IH.
Qed.

Lemma Index_take_None (s sep : string) (k : nat) :
  Index s sep = None -> Index (take k s) sep = None.
Proof.
  intros H. destruct (Index (take k s) sep) as [m|] eqn:E; [|reflexivity].
  apply (Index_append _ (drop k s)) in E. rewrite take_drop in E. congruence.
Qed.

(** The text before the first instance of a separator has no instance
    of it. *)
Lemma take_first_free (c : ascii) (r s : string) (m : nat) :
  Index s (String c r) = Some m -> Index (take m s) (String c r) = None.
Proof.
  intros H. destruct (Index (take m s) (String c r)) as [k|] eqn:E; [|reflexivity].
  pose proof (Index_bound _ _ _ E) as B.
  pose proof (length_take m s) as L.
  apply (Index_append _ (drop m s)) in E. rewrite take_drop in E.
  assert (k = m) by congruence. subst k. simpl in B. lia.
Qed.

Lemma before_free (c : ascii) (r s : string) :
  Index (before s (String c r)) (String c r) = None.
Proof.
  unfold before. destruct (Index s (String c r)) as [m|] eqn:E; [|exact E].
  now apply take_first_free.
Qed.

Lemma before_keeps_free (s sep m : string) :
  Index s m = None -> Index (before s sep) m = None.
Proof.
  intros H. unfold before. destruct (Index s sep); [|exact H].
  now apply Index_take_None.
Qed.

Lemma after_keeps_free (s sep m : string) :
  Index s m = None -> Index (after s sep) m = None.
Proof.
  intros H. unfold after. destruct (Index s sep); [now apply Index_drop_None|].
  destruct m; [|reflexivity].
  rewrite Index_unfold, HasPrefix_nil in H. discriminate.
Qed.

Lemma Split_nonempty (c : ascii) (r s : string) : Split s (String c r) <> [].
Proof.
  intros E. pose proof (Split_before c r s) as H. rewrite E in H. discriminate.
Qed.

(** A property of every slice of [Split], from an invariant of the text
    that is left to cut. *)
Lemma Split_Forall (c : ascii) (r : string) (Q P : string -> Prop) :
  (forall s j, Q s -> Q (drop j s)) ->
  (forall s, Q s -> Index s (String c r) = None -> P s) ->
  (forall s m, Q s -> Index s (String c r) = Some m -> P (take m s)) ->
  forall s, Q s -> Forall P (Split s (String c r)).
Proof.
  intros Hdrop Hlast Hcut s.
  remember (String.length s) as n eqn:Hn.
  assert (String.length s <= n) as Hle by lia. clear Hn.
  revert s Hle; induction n as [|n IH]; intros s Hle Hq.
  - destruct (Index s (String c r)) as [m|] eqn:E.
    + apply Index_bound in E. simpl in E. lia.
    + rewrite (Split_None _ _ _ E). constructor; [now apply Hlast | constructor].
  - destruct (Index s (String c r)) as [m|] eqn:E.
    + rewrite (Split_Some _ _ _ _ E). constructor; [now apply Hcut|].
      apply IH; [|now apply Hdrop].
      apply Index_bound in E. rewrite length_drop. simpl in *. lia.
    + rewrite (Split_None _ _ _ E). constructor; [now apply Hlast | constructor].
Qed.

(** No slice holds the separator. *)
Lemma Split_free (c : ascii) (r s : string) :
  Forall (fun e => Index e (String c r) = None) (Split s (String c r)).
Proof.
  apply (Split_Forall c r (fun _ => True)); auto.
  intros s' m _ E. now apply take_first_free.
Qed.

(** No slice holds a marker that the text does not hold. *)
Lemma Split_keeps_free (c : ascii) (r m s : string) :
  Index s m = None ->
  Forall (fun e => Index e m = None) (Split s (String c r)).
Proof.
  apply (Split_Forall c r (fun s => Index s m = None)).
  - intros s' j H. now apply Index_drop_None.
  - auto.
  - intros s' k H _. now apply Index_take_None.
Qed.

Lemma trimLeft_keeps_free (m : string) (n : nat) (s : string) :
  Index s m = None -> Index (trimLeft n s) m = None.
Proof.
  revert s; induction n as [|n IH]; intros s H; [exact H|].
  cbn [trimLeft]. destruct s as [|y s]; [exact H|].
  destruct (utf8.DecodeRuneInString (String y s)) as [rn size].
  destruct (unicode.IsSpace rn); [|exact H].
  apply IH. now apply Index_drop_None.
Qed.

Lemma trimRight_keeps_free (m : string) (n : nat) (s : string) :
  Index s m = None -> Index (trimRight n s) m = None.
Proof.
  revert s; induction n as [|n IH]; intros s H; [exact H|].
  cbn [trimRight]. destruct s as [|y s]; [exact H|].
  destruct (utf8.DecodeLastRuneInString (String y s)) as [rn size].
  destruct (unicode.IsSpace rn); [|exact H].
  apply IH. now apply Index_take_None.
Qed.

Lemma TrimSpace_keeps_free (m s : string) :
  Index s m = None -> Index (TrimSpace s) m = None.
Proof.
  intros H. unfold TrimSpace.
  now apply trimRight_keeps_free, trimLeft_keeps_free.
Qed.

(** X8: an [Info] that the parser returns has at least one layer; none
    of its layers holds a colon or one of the markers [,lowerdir=] and
    [,upperdir=]; its upper directory holds neither [,upperdir=] nor
    [,workdir=]. *)
Theorem mountCmdResultSplit_info_plain (result target : string) (info : Info) :
  mountCmdResultSplit result target = Some (true, Some info) ->
  Lowers info <> []
  /\ Forall (fun l => Contains l ":" = false
                      /\ Contains l ",lowerdir=" = false
                      /\ Contains l ",upperdir=" = false) (Lowers info)
  /\ Contains (Upper info) ",upperdir=" = false
  /\ Contains (Upper info) ",workdir=" = false.
Proof.
  rewrite mountCmdResultSplit_cases.
  destruct (negb (Contains result target)); [discriminate|].
  destruct (negb (Contains result ",upperdir=")); [discriminate|].
  destruct (negb (Contains (before result ",upperdir=") ",lowerdir="));
    [discriminate|].
  intros [= <-]. cbn [Lowers Upper]. unfold utils.Reverse.
  set (lower := before (after (before result ",upperdir=") ",lowerdir=") ",lowerdir=").
  assert (Index lower ",lowerdir=" = None) as HL by apply before_free.
  assert (Index lower ",upperdir=" = None) as HU.
  { apply before_keeps_free, after_keeps_free, before_free. }
  split; [|split; [|split]].
  - intros E. apply (f_equal (@rev string)) in E. rewrite rev_involutive in E.
    now apply (Split_nonempty ":" "" lower).
  - apply Forall_rev.
    pose proof (Split_free ":" "" lower) as H1.
    pose proof (Split_keeps_free ":" "" _ _ HL) as H2.
    pose proof (Split_keeps_free ":" "" _ _ HU) as H3.
    rewrite Forall_forall in *. intros l Hl.
    repeat split; apply Contains_false; auto.
  - apply Contains_false, TrimSpace_keeps_free, before_keeps_free, before_free.
  - apply Contains_false, TrimSpace_keeps_free, before_free.
Qed.

Lemma mountCmdResultSplit_info_plain_witness :
  Contains "/u" ",workdir=" = false /\ ["/l1"; "/l2"] <> [].
Proof.
  pose proof (mountCmdResultSplit_info_plain
                "overlay on /m type overlay (rw,lowerdir=/l2:/l1,upperdir=/u,workdir=/m/work)"
                "/m" (mkInfo "/m" "/u" ["/l1"; "/l2"]) eq_refl) as (A & _ & _ & B).
  exact (conj B A).
Defined.

(** A text is cut at the first instance of the separator into what is
    before it and what is after it. *)
Lemma Index_decomp (s sep : string) (m : nat) :
  Index s sep = Some m ->
  take m s ++ sep ++ drop (m + String.length sep) s = s.
Proof.
  intros E. rewrite <- drop_drop.
  rewrite <- (HasPrefix_split _ _ (Index_prefix _ _ _ E)). apply take_drop.
Qed.

(** Joining the slices of [Split] with the separator gives the text
    back. *)
Lemma Join_Split (c : ascii) (r s : string) :
  Join (Split s (String c r)) (String c r) = s.
Proof.
  remember (String.length s) as n eqn:Hn.
  assert (String.length s <= n) as Hle by lia. clear Hn.
  revert s Hle; induction n as [|n IH]; intros s Hle.
  - destruct (Index s (String c r)) as [m|] eqn:E.
    + apply Index_bound in E. simpl in E. lia.
    + now rewrite (Split_None _ _ _ E).
  - destruct (Index s (String c r)) as [m|] eqn:E.
    + rewrite (Split_Some _ _ _ _ E).
      pose proof (Split_nonempty c r (drop (m + String.length (String c r)) s)) as Hne.
      pose proof (IH (drop (m + String.length (String c r)) s)) as H.
      destruct (Split (drop (m + String.length (String c r)) s) (String c r))
        as [|x xs]; [congruence|].
      rewrite Join_cons, H; [now apply Index_decomp|].
      apply Index_bound in E. rewrite length_drop. simpl in *. lia.
    + now rewrite (Split_None _ _ _ E).
Qed.

(** X9: the layers that the parser returns lose nothing of the text of
    the lower directories: put back in kernel order and joined with
    colons, they are the text between the first marker [,lowerdir=] and
    the marker after it ([,lowerdir=] again, or the first [,upperdir=]). *)
Theorem mountCmdResultSplit_lowers_rejoin (result target : string) (info : Info) :
  mountCmdResultSplit result target = Some (true, Some info) ->
  Join (utils.Reverse (Lowers info)) ":"
  = before (after (before result ",upperdir=") ",lowerdir=") ",lowerdir=".
Proof.
  rewrite mountCmdResultSplit_cases.
  destruct (negb (Contains result target)); [discriminate|].
  destruct (negb (Contains result ",upperdir=")); [discriminate|].
  destruct (negb (Contains (before result ",upperdir=") ",lowerdir="));
    [discriminate|].
  intros [= <-]. cbn [Lowers]. unfold utils.Reverse.
  rewrite rev_involutive. apply Join_Split.
Qed.

Lemma mountCmdResultSplit_lowers_rejoin_witness :
  Join (utils.Reverse ["/l1"; ""; "/l3"]) ":" = "/l3::/l1".
Proof.
  exact (mountCmdResultSplit_lowers_rejoin
           "overlay on /m type overlay (rw,lowerdir=/l3::/l1,upperdir=/u,workdir=/m/work)"
           "/m" (mkInfo "/m" "/u" ["/l1"; ""; "/l3"]) eq_refl).
Defined.

(* ------------------------------------------------------------------ *)
(** ** The upper directory, byte for byte *)

Lemma get_append (a : string) (c : ascii) (t : string) :
  String.get (String.length a) (a ++ String c t) = Some c.
Proof. induction a as [|x a IH]; [reflexivity | exact IH]. Qed.

Lemma byteAt_last (a : string) (c : ascii) :
  byteAt (a ++ String c "") (Z.of_nat (String.length (a ++ String c "")) - 1)
  = byteVal c.
Proof.
  unfold byteAt. rewrite length_append. cbn [String.length].
  replace (Z.to_nat (Z.of_nat (String.length a + 1) - 1)) with (String.length a)
    by lia.
  now rewrite get_append.
Qed.

Lemma DecodeLastRuneInString_plain (a : string) (c : ascii) :
  plainByte c ->
  utf8.DecodeLastRuneInString (a ++ String c "") = (byteVal c, 1).
Proof.
  intros [Hc _]. unfold utf8.DecodeLastRuneInString.
  assert ((Z.of_nat (String.length (a ++ String c "")) =? 0)%Z = false) as ->.
  { apply Z.eqb_neq. rewrite length_append. cbn [String.length]. lia. }
  cbv zeta. rewrite byteAt_last, Hc. reflexivity.
Qed.

Lemma trimLeft_plain (n : nat) (c : ascii) (t : string) :
  plainByte c -> trimLeft n (String c t) = String c t.
Proof.
  intros [Hc Hs]. destruct n as [|n]; [reflexivity|].
  cbn [trimLeft].
  assert (utf8.DecodeRuneInString (String c t) = (byteVal c, 1)) as ->.
  { unfold utf8.DecodeRuneInString. now rewrite Hc. }
  now rewrite Hs.
Qed.

Lemma trimRight_plain (n : nat) (a : string) (c : ascii) :
  plainByte c -> trimRight n (a ++ String c "") = a ++ String c "".
Proof.
  intros Hc. destruct n as [|n]; [reflexivity|].
  cbn [trimRight].
  pose proof (DecodeLastRuneInString_plain a c Hc) as D.
  destruct (a ++ String c "") as [|y s] eqn:E.
  - destruct a; discriminate E.
  - rewrite D. destruct Hc as [_ Hs]. now rewrite Hs.
Qed.

(** [TrimSpace] leaves alone a text that begins and ends with a byte
    below [0x80] that is not white space. *)
Lemma TrimSpace_plain (c0 c1 : ascii) (t a : string) :
  plainByte c0 -> plainByte c1 ->
  String c0 t = a ++ String c1 "" ->
  TrimSpace (String c0 t) = String c0 t.
Proof.
  intros H0 H1 E. unfold TrimSpace.
  rewrite (trimLeft_plain _ c0 t H0). rewrite E.
  now apply trimRight_plain.
Qed.

(** X10: take a text in which the first marker [,upperdir=] comes after a
    marker [,lowerdir=] and is followed by [upper], the marker
    [,workdir=] and anything.  When [upper] holds neither [,upperdir=]
    nor [,workdir=], and begins and ends with a byte below [0x80] that is
    not white space (as a path such as [/up] does), the parser returns
    [upper] itself as the upper directory, for every target that the text
    contains. *)
Theorem mountCmdResultSplit_upper_verbatim (front upper rest target : string)
    (c0 c1 : ascii) (t a : string) :
  Contains front ",upperdir=" = false ->
  Contains front ",lowerdir=" = true ->
  Contains upper ",upperdir=" = false ->
  Contains upper ",workdir=" = false ->
  upper = String c0 t -> upper = a ++ String c1 "" ->
  plainByte c0 -> plainByte c1 ->
  Contains (front ++ ",upperdir=" ++ upper ++ ",workdir=" ++ rest) target = true ->
  exists lowers,
    mountCmdResultSplit (front ++ ",upperdir=" ++ upper ++ ",workdir=" ++ rest) target
    = Some (true, Some (mkInfo target upper lowers)).
Proof.
  intros Hf Hl Hu Hw E0 E1 P0 P1 Ht.
  rewrite mountCmdResultSplit_cases, Ht. cbn [negb].
  apply Contains_false in Hf.
  pose proof (Index_first "," "upperdir=" front (upper ++ ",workdir=" ++ rest)
                eq_refl Hf) as E.
  pose proof (before_first "," "upperdir=" eq_refl front
                (upper ++ ",workdir=" ++ rest) Hf) as B.
  unfold Contains at 1, after at 1. rewrite E, B, Hl. cbn [negb].
  rewrite drop_append.
  change (String.length ",upperdir=") with (String.length ",upperdir=" + 0).
  rewrite drop_append, drop_0.
  rewrite (back_upper upper rest Hu Hw).
  assert (TrimSpace upper = upper) as ->.
  { rewrite E0 in E1 |- *. now apply (TrimSpace_plain c0 c1 t a). }
  eexists. reflexivity.
Qed.

Lemma mountCmdResultSplit_upper_verbatim_witness :
  exists lowers,
    mountCmdResultSplit
      ("none on /m type overlay (rw,lowerdir=/l" ++ ",upperdir=" ++ "/my up"
         ++ ",workdir=" ++ "/m/work,index=off)") "/m"
    = Some (true, Some (mkInfo "/m" "/my up" lowers)).
Proof.
  apply (mountCmdResultSplit_upper_verbatim
           "none on /m type overlay (rw,lowerdir=/l" "/my up" "/m/work,index=off)" "/m"
           "/" "p" "my up" "/my u");
    try reflexivity; split; reflexivity.
Defined.

(* ------------------------------------------------------------------ *)
(** ** The look-ups *)

(** X11: a look-up whose command fails returns [found = false] without
    reading the output.  A look-up panics exactly when the command
    succeeds and its output contains the target and the marker
    [,upperdir=] with no marker [,lowerdir=] before the first
    [,upperdir=].  This holds of the local and of the remote look-up. *)
Theorem GetMountDetails_outcome (os : OS) (s : ssh_Interface) (ip target : string) :
  (snd (utils_RunSimpleCmd os ("mount | grep " ++ target)) <> None ->
   GetMountDetails os target = Some (false, None))
  /\ (GetMountDetails os target = None
      <-> snd (utils_RunSimpleCmd os ("mount | grep " ++ target)) = None
          /\ mountCmdResultSplit
               (fst (utils_RunSimpleCmd os ("mount | grep " ++ target))) target = None)
  /\ (snd (Cmd s ip ("mount | grep " ++ target)) <> None ->
      GetRemoteMountDetails s ip target = Some (false, None))
  /\ (GetRemoteMountDetails s ip target = None
      <-> snd (Cmd s ip ("mount | grep " ++ target)) = None
          /\ mountCmdResultSplit
               (fst (Cmd s ip ("mount | grep " ++ target))) target = None)
  /\ (forall out, mountCmdResultSplit out target = None
      <-> Contains out target = true
          /\ Contains out ",upperdir=" = true
          /\ Contains (before out ",upperdir=") ",lowerdir=" = false).
Proof.
  unfold GetMountDetails, GetRemoteMountDetails.
  destruct (utils_RunSimpleCmd os ("mount | grep " ++ target)) as [out [e|]];
    destruct (Cmd s ip ("mount | grep " ++ target)) as [rout [re|]];
    cbn [fst snd];
    (split; [|split; [|split; [|split]]]);
    try (intros; congruence);
    try (split; [discriminate | intros [H _]; discriminate H]);
    try (split; [auto | intros [_ H]; exact H]).
  all: intros out'; rewrite mountCmdResultSplit_cases;
    destruct (Contains out' target); cbn [negb];
    [destruct (Contains out' ",upperdir="); cbn [negb];
     [destruct (Contains (before out' ",upperdir=") ",lowerdir="); cbn [negb]|]|];
    split; intros; repeat match goal with H : _ /\ _ |- _ => destruct H end;
    try discriminate; auto.
Qed.

Lemma GetMountDetails_outcome_witness :
  GetMountDetails (oldKernel "/none" "") "/merged" = Some (false, None)
  /\ GetMountDetails
       (oldKernel "/merged" "lowerdir=b:a,upperdir=/up,workdir=/merged/work")
       "/merged" = None.
Proof.
  split.
  - apply (proj1 (GetMountDetails_outcome (oldKernel "/none" "") (remoteHost "")
                    "" "/merged")).
    discriminate.
  - apply (proj1 (proj2 (GetMountDetails_outcome
                           (oldKernel "/merged"
                              "lowerdir=b:a,upperdir=/up,workdir=/merged/work")
                           (remoteHost "") "" "/merged"))).
    split; reflexivity.
Defined.

(* ------------------------------------------------------------------ *)
(** ** The enumeration: panics, bounds and filters *)

Section CollectOutcome.

Variable os : OS.

Let step (acc : option (list Info)) (p : string) : option (list Info) :=
  infos <-? acc ;;
  r <-? GetMountDetails os p ;;
  match snd r with
  | Some info => Some (infos ++ [info])%list
  | None => Some infos
  end.

(** The second loop panics exactly when one of its look-ups does. *)
Lemma collect_none (mp : list string) (acc : list Info) :
  fold_left step mp (Some acc) = None
  <-> Exists (fun p => GetMountDetails os p = None) mp.
Proof.
  revert acc; induction mp as [|p mp IH]; intros acc; cbn [fold_left].
  - split; [discriminate | intros H; inversion H].
  - unfold step at 2. cbn [obind].
    destruct (GetMountDetails os p) as [[found [info|]]|] eqn:E; cbn [obind snd].
    + rewrite IH. split; [now right|].
      intros H. inversion H as [? ? H0|]; subst; [congruence | assumption].
    + rewrite IH. split; [now right|].
      intros H. inversion H as [? ? H0|]; subst; [congruence | assumption].
    + split; [now left | intros _; exact (collect_panic os mp)].
Qed.

End CollectOutcome.

Lemma length_parsed (os : OS) (mp : list string) :
  List.length (flat_map (parsed os) mp) <= List.length mp.
Proof.
  induction mp as [|p mp IH]; cbn [flat_map List.length]; [lia|].
  rewrite length_app. unfold parsed at 1.
  destruct (GetMountDetails os p) as [[found [info|]]|]; cbn [List.length]; lia.
Qed.

(** X12: [GetBuildMountInfo] panics exactly when the look-up of one of
    the retained partitions panics: one entry of the mount table with
    [,upperdir=] and no [,lowerdir=] before it loses the whole list. *)
Theorem GetBuildMountInfo_panic (os : OS) (filter : string) :
  GetBuildMountInfo os filter = None
  <-> Exists (fun p => retained filter p = true
                       /\ GetMountDetails os (Mountpoint p) = None)
             (fst (disk_Partitions os true)).
Proof.
  unfold GetBuildMountInfo.
  destruct (disk_Partitions os true) as [ps e]. cbn [fst].
  rewrite retained_mountpoints. cbn [app]. rewrite collect_none.
  rewrite !Exists_exists. split.
  - intros [mp [Hin Hp]]. apply in_map_iff in Hin as [p [<- Hin]].
    apply filter_In in Hin as [Hin Hr]. eauto.
  - intros [p [Hin [Hr Hp]]]. exists (Mountpoint p). split; [|exact Hp].
    apply in_map. apply filter_In. auto.
Qed.

Lemma GetBuildMountInfo_panic_witness :
  GetBuildMountInfo brokenBuildHost "tmp" = None
  /\ GetBuildMountInfo brokenBuildHost "data" = Some [].
Proof.
  split; [|reflexivity].
  apply (proj2 (GetBuildMountInfo_panic brokenBuildHost "tmp")).
  left. split; reflexivity.
Defined.

(** X13: [GetBuildMountInfo] returns at most one entry for each retained
    partition, so no more entries than there are partitions; when no
    partition is retained it returns the empty list, whatever the mount
    table holds. *)
Theorem GetBuildMountInfo_bounds (os : OS) (filter : string) :
  (forall infos, GetBuildMountInfo os filter = Some infos ->
     List.length infos
     <= List.length (List.filter (retained filter) (fst (disk_Partitions os true)))
     /\ List.length infos <= List.length (fst (disk_Partitions os true)))
  /\ ((forall p, In p (fst (disk_Partitions os true)) -> retained filter p = false) ->
      GetBuildMountInfo os filter = Some []).
Proof.
  unfold GetBuildMountInfo.
  destruct (disk_Partitions os true) as [ps e]. cbn [fst].
  rewrite retained_mountpoints. cbn [app]. split.
  - intros infos H. apply collect_some in H. cbn [app] in H. subst infos.
    pose proof (length_parsed os (map Mountpoint (List.filter (retained filter) ps))) as L.
    rewrite length_map in L.
    pose proof (filter_length_le (retained filter) ps). lia.
  - intros H.
    assert (List.filter (retained filter) ps = []) as ->; [|reflexivity].
    induction ps as [|p ps IH]; [reflexivity|]. cbn [List.filter].
    rewrite (H p (or_introl eq_refl)). apply IH. intros q Hq. apply H. now right.
Qed.

Lemma GetBuildMountInfo_bounds_witness :
  GetBuildMountInfo brokenBuildHost "docker" = Some []
  /\ 2 <= List.length (List.filter (retained "tmp") (fst (disk_Partitions buildHost true))).
Proof.
  split.
  - apply (proj2 (GetBuildMountInfo_bounds brokenBuildHost "docker")).
    intros p Hp. repeat (destruct Hp as [<- | Hp]; [reflexivity|]). destruct Hp.
  - exact (proj1 (proj1 (GetBuildMountInfo_bounds buildHost "tmp") _ eq_refl)).
Defined.

(** A text contains its parts. *)
Lemma Contains_infix (p a q : string) : Contains (p ++ a ++ q) a = true.
Proof.
  apply Contains_true. induction p as [|y p [m IH]].
  - exists 0. change ("" ++ a ++ q) with (a ++ q).
    now rewrite Index_unfold, HasPrefix_append.
  - change (String y p ++ a ++ q) with (String y (p ++ a ++ q)).
    rewrite Index_unfold.
    destruct (HasPrefix (String y (p ++ a ++ q)) a); [eauto|].
    rewrite IH. cbn [option_map]. eauto.
Qed.

Lemma Contains_decomp (s sub : string) :
  Contains s sub = true -> exists x y, s = x ++ sub ++ y.
Proof.
  intros H. apply Contains_true in H as [m H].
  exists (take m s), (drop (m + String.length sub) s).
  symmetry. now apply Index_decomp.
Qed.

(** What contains a text contains what the text contains. *)
Lemma Contains_trans (s b a : string) :
  Contains s b = true -> Contains b a = true -> Contains s a = true.
Proof.
  intros H1 H2.
  apply Contains_decomp in H1 as (x & y & ->).
  apply Contains_decomp in H2 as (u & v & ->).
  rewrite !append_assoc. rewrite <- (append_assoc x u).
  apply Contains_infix.
Qed.

Lemma retained_narrow (wide narrow : string) (p : PartitionStat) :
  Contains narrow wide = true ->
  retained narrow p = true -> retained wide p = true.
Proof.
  unfold retained. intros Hc H.
  apply andb_true_iff in H as [H H3]. rewrite H. cbn [andb].
  now apply (Contains_trans _ narrow).
Qed.

(** X14: a longer filter never adds entries: when the filter [narrow]
    contains the filter [wide], every entry of the list returned for
    [narrow] is in the list returned for [wide].  In particular every
    list is included in the one returned for the empty filter, which
    retains every overlay partition whose mount point contains
    "sealer". *)
Theorem GetBuildMountInfo_narrow (os : OS) (wide narrow : string)
    (some all : list Info) :
  Contains narrow wide = true ->
  GetBuildMountInfo os narrow = Some some ->
  GetBuildMountInfo os wide = Some all ->
  incl some all
  /\ (forall p, retained "" p
                = (Fstype p =? "overlay") && Contains (Mountpoint p) "sealer").
Proof.
  intros Hc. unfold GetBuildMountInfo.
  destruct (disk_Partitions os true) as [ps e].
  rewrite !retained_mountpoints. cbn [app].
  intros H1 H2. apply collect_some in H1, H2. cbn [app] in H1, H2. subst.
  split.
  - intros info Hin.
    apply in_flat_map in Hin as [mp [Hmp Hin]]. apply in_flat_map.
    exists mp. split; [|exact Hin].
    apply in_map_iff in Hmp as [p [<- Hp]]. apply in_map.
    apply filter_In in Hp as [Hp Hr]. apply filter_In.
    split; [exact Hp | now apply (retained_narrow wide narrow)].
  - intros p. unfold retained.
    assert (Contains (Mountpoint p) "" = true) as ->.
    { unfold Contains. now rewrite Index_unfold, HasPrefix_nil. }
    apply andb_true_r.
Qed.

Lemma GetBuildMountInfo_narrow_witness :
  incl [mkInfo "/var/lib/sealer/tmp/y2" "/var/lib/sealer/tmp/y2-upper" ["/l/3"]]
       [mkInfo "/var/lib/sealer/tmp/x1" "/var/lib/sealer/tmp/x1-upper" ["/l/1"; "/l/2"];
        mkInfo "/var/lib/sealer/tmp/y2" "/var/lib/sealer/tmp/y2-upper" ["/l/3"]].
Proof.
  exact (proj1 (GetBuildMountInfo_narrow buildHost "" "tmp/y" _ _
                  eq_refl eq_refl eq_refl)).
Defined.

(* ------------------------------------------------------------------ *)
(** ** A trailing slash on the target *)

Lemma Clean_trailing_slash (t : string) :
  t <> "" -> path.Clean ((t ++ "/") ++ "/work") = path.Clean (t ++ "/work").
Proof.
  intros Ht. unfold path.Clean.
  assert (1 <= String.length t) as Hlen.
  { destruct t; [congruence | simpl; lia]. }
  assert (((t ++ "/") ++ "/work" =? "") = false) as -> by (now destruct t).
  assert ((t ++ "/work" =? "") = false) as -> by (now destruct t).
  rewrite (append_assoc t "/" "/work").
  rewrite !(HasPrefix_long t "/" _ Hlen).
  change (t ++ "/" ++ "/work") with (t ++ "/" ++ ("" ++ "/" ++ "work")).
  change (t ++ "/work") with (t ++ "/" ++ "work").
  rewrite !Split_byte_append, !fold_left_app.
  reflexivity.
Qed.

(** X15: a slash at the end of a non-empty target changes neither the
    work directory that [Mount] creates nor the option string that it
    hands to the mount call. *)
Theorem Mount_trailing_slash (os : OS) (target upper : string)
    (layers : list string) :
  target <> "" ->
  path.Join [target ++ "/"; "work"] = path.Join [target; "work"]
  /\ mountCalls (snd (Mount os (target ++ "/") upper layers))
     = mountCalls (snd (Mount os target upper layers)).
Proof.
  intros Ht.
  assert (target ++ "/" <> "") as Ht' by (now destruct target).
  assert (path.Join [target ++ "/"; "work"] = path.Join [target; "work"]) as E.
  { cbn [path.Join].
    apply String.eqb_neq in Ht, Ht'. rewrite Ht, Ht'.
    change (Join [target ++ "/"; "work"] "/") with ((target ++ "/") ++ "/work").
    change (Join [target; "work"] "/") with (target ++ "/work").
    apply Clean_trailing_slash. now apply String.eqb_neq. }
  split; [exact E|].
  destruct layers as [|l layers].
  - unfold Mount. apply String.eqb_neq in Ht, Ht'. now rewrite Ht, Ht'.
  - destruct (utils_Mkdir os (path.Join [target; "work"])) as [e|] eqn:Hmk.
    + rewrite (Mount_stops_at_mkdir os target upper (l :: layers) e Ht) by
        (discriminate || exact Hmk).
      rewrite <- E in Hmk.
      rewrite (Mount_stops_at_mkdir os (target ++ "/") upper (l :: layers) e Ht') by
        (discriminate || exact Hmk).
      reflexivity.
    + rewrite (Mount_mountCalls os target upper (l :: layers) Ht) by
        (discriminate || exact Hmk).
      rewrite <- E in Hmk.
      rewrite (Mount_mountCalls os (target ++ "/") upper (l :: layers) Ht') by
        (discriminate || exact Hmk).
      now rewrite E.
Qed.

Lemma Mount_trailing_slash_witness :
  path.Join ["/merged/"; "work"] = "/merged/work"
  /\ mountCalls (snd (Mount (oldKernel "" "") "/merged/" "/up" ["base"; "app"]))
     = ["lowerdir=app:base,upperdir=/up,workdir=/merged/work"].
Proof.
  pose proof (Mount_trailing_slash (oldKernel "" "") "/merged" "/up" ["base"; "app"])
    as [A B]; [discriminate|].
  split; [exact (eq_trans A eq_refl) | exact (eq_trans B eq_refl)].
Defined.
